(** * Box-counting fractal-dimension engine (fractal_engine.py)

    A shallow embedding of [validate_data], [get_box_counts],
    [calculate_fractal_dimension] and [box_counting], together with the
    parts of numpy and scipy they call ([arange], [linspace], [logspace],
    [histogram2d], [linregress]).

    Number model.  A Python float and a numpy float64 are binary64
    numbers: the type [float] of the kernel, whose operations round to
    nearest as the processor does; a decimal literal such as [0.1] is
    the nearest binary64 number, as in Python.  [np.arange] computes its length and
    its values in this arithmetic, so the grid of [get_box_counts] is the
    grid the code builds, rounding included.  What numpy and scipy compute
    by routines whose last bit depends on the platform (the logarithm, the
    power, the mean and the covariance of the regression) is not fixed
    here: these are the fields of [MathLib], and every theorem holds for
    every library unless it names the one it uses.

    [linregress] follows scipy as of its version 1.17: a sample of fewer
    than two observations, or holding NaN, gives a result of NaN fields
    and no exception; abscissas that are all identical are refused.

    Outside the model: the memory an array needs, and the warnings of
    numpy and scipy themselves (only the warning of the engine is
    recorded).

    The callers of the engine follow: [analyze_csv], the yearly loops of
    compare_regions.py and app_v2.py, and the dataset registry of
    data_registry.py, whose file is an explicit state. *)

From Stdlib Require Import String Ascii.
From Stdlib Require Import ZArith List Lia Bool Arith Sorted.
From Stdlib Require Import Floats.
Import ListNotations.
Set Warnings "-inexact-float".
Open Scope float_scope.

(** ** Exceptions, outcomes, warnings *)

(** The text of each exception the engine can raise.  The first five are
    raised by [validate_data], the sixth by [box_counting] itself (its
    f-string carries the two sizes, left out here); the others come from
    numpy and scipy. *)
Inductive message : Type :=
| CoordinateArraysEmpty      (* "Coordinate arrays cannot be empty" *)
| ArraysLengthMismatch       (* "Latitude and longitude arrays must have same length" *)
| CoordinatesNotFinite       (* "Coordinates contain NaN or infinite values" *)
| LatitudeOutOfRange         (* "Latitude values must be between -90 and 90" *)
| LongitudeOutOfRange        (* "Longitude values must be between -180 and 180" *)
| MinBoxNotLessThanMax       (* "min_box_size (..) must be less than max_box_size (..)" *)
| ZeroSizeReduction          (* numpy: min or max of an empty array *)
| ArangeCannotComputeLength  (* numpy: "arange: cannot compute length" *)
| MaximumAllowedSizeExceeded (* numpy: "Maximum allowed size exceeded" *)
| BinsNotMonotonic           (* numpy: "`bins[i]` must be monotonically increasing" *)
| HistogramLengthMismatch    (* numpy: "x and y must have the same length." *)
| NegativeSampleCount        (* numpy: "Number of samples, .., must be non-negative." *)
| ArrayShapeMismatch         (* scipy: the two samples do not have one length *)
| RegressionIdenticalX.      (* scipy: "Cannot calculate a linear regression if all x values are identical" *)

Inductive exn : Type :=
| ValueError (m : message)
| IndexError.

Inductive outcome (A : Type) : Type :=
| Ok (a : A)
| Raise (e : exn).
Arguments Ok {A} a.
Arguments Raise {A} e.

Definition obind {A B} (c : outcome A) (k : A -> outcome B) : outcome B :=
  match c with
  | Ok a => k a
  | Raise e => Raise e
  end.

Notation "x <- c ;; k" := (obind c (fun x => k))
  (at level 61, c at next level, right associativity).

Fixpoint omap {A B} (f : A -> outcome B) (xs : list A) : outcome (list B) :=
  match xs with
  | [] => Ok []
  | x :: r => y <- f x ;; ys <- omap f r ;; Ok (y :: ys)
  end.

(** [warnings.warn]: the one warning of the engine. *)
Inductive warning : Type :=
| TooFewValidBoxSizes.  (* "Too few valid box sizes for reliable D estimation. ..." *)

(** A computation that may raise and that appends to the ambient list of
    emitted warnings; the warnings emitted before a raise stay emitted. *)
Definition M (A : Type) : Type := list warning -> outcome A * list warning.

Definition mret {A} (a : A) : M A := fun w => (Ok a, w).
Definition mbind {A B} (c : M A) (k : A -> M B) : M B :=
  fun w => match c w with
           | (Ok a, w') => k a w'
           | (Raise e, w') => (Raise e, w')
           end.
Definition lift {A} (c : outcome A) : M A := fun w => (c, w).
Definition warn (x : warning) : M unit := fun w => (Ok tt, w ++ [x]).
Definition when (b : bool) (c : M unit) : M unit := if b then c else mret tt.

Notation "x <~ c ;; k" := (mbind c (fun x => k))
  (at level 61, c at next level, right associativity).

(** ** Numbers *)

(** An integer as a float64 (the conversion of C, rounding to nearest). *)
Definition of_int (z : Z) : float := SF2Prim (binary_normalize prec emax z 0 false).

(** The integer [ceil(x)] of a finite [x]. *)
Definition ceiling (x : spec_float) : option Z :=
  match x with
  | S754_zero _ => Some 0%Z
  | S754_finite s m e =>
      let n := if s then Zneg m else Zpos m in
      Some match e with
           | Zneg p => (- ((- n) / Z.pow_pos 2 p))%Z
           | _ => (n * 2 ^ e)%Z
           end
  | S754_infinity _ | S754_nan => None
  end.

(** Python's [min(a, b)]: the first argument unless the second is smaller. *)
Definition py_min (a b : float) : float := if b <? a then b else a.

(** The routines of numpy and scipy whose result is fixed by the platform
    only: [np.log10], [np.power] (the operator [**]), [np.mean], and the
    entries [ssxm, ssxym, ssym] of [np.cov(x, y, bias=1)]. *)
Record MathLib : Type := {
  log10 : float -> float;
  power : float -> float -> float;
  mean : list float -> float;
  cov : list float -> list float -> float * float * float
}.

(** ** numpy *)

Module np.

(** [np.maximum] and [np.minimum] on two elements; a NaN is kept. *)
Definition maximum (a b : float) : float := if (b <=? a) || is_nan a then a else b.
Definition minimum (a b : float) : float := if (a <=? b) || is_nan a then a else b.

Definition amin (xs : list float) : outcome float :=
  match xs with
  | [] => Raise (ValueError ZeroSizeReduction)
  | x :: r => Ok (fold_left minimum r x)
  end.

Definition amax (xs : list float) : outcome float :=
  match xs with
  | [] => Raise (ValueError ZeroSizeReduction)
  | x :: r => Ok (fold_left maximum r x)
  end.

(** The length of [np.arange(start, stop, step)]: the ceiling of
    [(stop - start) / step], computed in float64; a quotient that
    underflows to zero counts as one element. *)
Definition arange_length (start stop step : float) : outcome Z :=
  let delta := stop - start in
  let value := delta / step in
  match ceiling (Prim2SF value) with
  | None =>
      if is_nan value then Raise (ValueError ArangeCannotComputeLength)
      else Raise (ValueError MaximumAllowedSizeExceeded)
  | Some len =>
      if (len <? - 2 ^ 63)%Z || (2 ^ 63 <=? len)%Z
      then Raise (ValueError MaximumAllowedSizeExceeded)
      else if is_zero value && negb (is_zero delta)
      then Ok (if get_sign value then 0%Z else 1%Z)
      else Ok len
  end.

(** [np.arange(start, stop, step)] on float64 arguments: the first two
    values are [start] and [start + step], the others
    [start + i * ((start + step) - start)]. *)
Definition arange (start stop step : float) : outcome (list float) :=
  len <- arange_length start stop step ;;
  let next := start + step in
  let delta := next - start in
  Ok (map (fun i => match i with
                    | O => start
                    | S O => next
                    | _ => start + of_int (Z.of_nat i) * delta
                    end)
          (seq 0 (Z.to_nat len))).

(** [np.linspace(start, stop, num)] with its default [endpoint=True]. *)
Definition linspace (start stop : float) (num : Z) : outcome (list float) :=
  if (num <? 0)%Z then Raise (ValueError NegativeSampleCount)
  else
    let n := Z.to_nat num in
    let div := of_int (num - 1) in
    let delta := stop - start in
    let step := delta / div in
    Ok (map (fun i =>
               let y := of_int (Z.of_nat i) in
               if (1 <? num)%Z && (S i =? n)%nat then stop
               else if (1 <? num)%Z
                    then (if step =? 0 then y / div * delta else y * step) + start
                    else y * delta + start)
            (seq 0 n)).

(** [np.logspace(start, stop, num)] = [10.0 ** linspace(start, stop, num)]. *)
Definition logspace (lib : MathLib) (start stop : float) (num : Z) : outcome (list float) :=
  y <- linspace start stop num ;;
  Ok (map (power lib 10) y).

(** [np.any(edges[:-1] > edges[1:])] negated. *)
Fixpoint nondecreasing (edges : list float) : bool :=
  match edges with
  | [] => true
  | a :: r =>
      match r with
      | [] => true
      | b :: _ => negb (b <? a) && nondecreasing r
      end
  end.

(** [np.searchsorted(edges, x, side='right')] on sorted edges. *)
Definition searchsorted_right (edges : list float) (x : float) : nat :=
  length (filter (fun e => e <=? x) edges).

(** The bin number of one sample along one axis, as [histogramdd]
    computes it: 0 and [length edges] are the two outlier bins; a sample
    on the last edge is moved one bin to the left. *)
Definition bin_number (edges : list float) (x : float) : nat :=
  let k := searchsorted_right edges x in
  if x =? last edges 0 then (k - 1)%nat else k.

Definition pair_eqb (a b : nat * nat) : bool :=
  (fst a =? fst b)%nat && (snd a =? snd b)%nat.

(** [np.histogram2d(x, y, bins=[xedges, yedges])]: the counts of the
    inner bins, outliers removed (rows along the first axis). *)
Definition histogram2d (x y xedges yedges : list float) : outcome (list (list nat)) :=
  if negb (length x =? length y)%nat then Raise (ValueError HistogramLengthMismatch)
  else if negb (nondecreasing xedges) then Raise (ValueError BinsNotMonotonic)
  else if negb (nondecreasing yedges) then Raise (ValueError BinsNotMonotonic)
  else
    match xedges, yedges with
    | [], _ | _, [] => Raise IndexError
    | _, _ =>
        let ncount := map (fun p => (bin_number xedges (fst p), bin_number yedges (snd p)))
                          (combine x y) in
        Ok (map (fun i =>
                   map (fun j => length (filter (pair_eqb (i, j)) ncount))
                       (seq 1 (length yedges - 1)))
                (seq 1 (length xedges - 1)))
    end.

(** [np.sum(hist > 0)]. *)
Definition count_positive (hist : list (list nat)) : nat :=
  list_sum (map (fun row => length (filter (fun h => (0 <? h)%nat) row)) hist).

End np.

(** ** scipy.stats *)

Module stats.

Record LinregressResult : Type := {
  slope : float;
  intercept : float;
  rvalue : float;
  stderr : float
}.

(** What a sample that is too small, or holds NaN, gives. *)
Definition nan_result : LinregressResult :=
  {| slope := nan; intercept := nan; rvalue := nan; stderr := nan |}.

Definition clamp (r : float) : float :=
  if 1 <? r then 1 else if r <? -1 then -1 else r.

(** [scipy.stats.linregress(x, y)], the fields the engine reads.  The
    engine passes two arrays of one length; scipy would first try to
    broadcast others, which are refused here. *)
Definition linregress (lib : MathLib) (x y : list float) : outcome LinregressResult :=
  if negb (length x =? length y)%nat then Raise (ValueError ArrayShapeMismatch)
  else if existsb is_nan x || existsb is_nan y then Ok nan_result
  else
    match x with
    | [] | [_] => Ok nan_result
    | x0 :: xr =>
        if fold_left np.maximum xr x0 =? fold_left np.minimum xr x0
        then Raise (ValueError RegressionIdenticalX)
        else
          let n := length x in
          let xmean := mean lib x in
          let ymean := mean lib y in
          let '(ssxm, ssxym, ssym) := cov lib x y in
          let r := if (ssxm =? 0) || (ssym =? 0)
                   then (if ssxym =? 0 then nan else 0)
                   else clamp (ssxym / sqrt (ssxm * ssym)) in
          let b := ssxym / ssxm in
          Ok {| slope := b;
                intercept := ymean - b * xmean;
                rvalue := r;
                stderr := if (n =? 2)%nat then 0
                          else sqrt ((1 - power lib r 2) * ssym / ssxm
                                     / of_int (Z.of_nat n - 2)) |}
    end.

End stats.

(** ** fractal_engine.py *)

(** [validate_data]: raises on the first broken requirement. *)
Definition validate_data (latitudes longitudes : list float) : outcome unit :=
  if (length latitudes =? 0)%nat || (length longitudes =? 0)%nat
  then Raise (ValueError CoordinateArraysEmpty)
  else if negb (length latitudes =? length longitudes)%nat
  then Raise (ValueError ArraysLengthMismatch)
  else if negb (forallb is_finite latitudes) || negb (forallb is_finite longitudes)
  then Raise (ValueError CoordinatesNotFinite)
  else if existsb (fun x => 90 <? abs x) latitudes
  then Raise (ValueError LatitudeOutOfRange)
  else if existsb (fun x => 180 <? abs x) longitudes
  then Raise (ValueError LongitudeOutOfRange)
  else Ok tt.

(** [get_box_counts]: the number of grid cells holding a point. *)
Definition get_box_counts (latitudes longitudes : list float) (box_size : float)
  : outcome nat :=
  lat_min <- np.amin latitudes ;;
  lat_max <- np.amax latitudes ;;
  lon_min <- np.amin longitudes ;;
  lon_max <- np.amax longitudes ;;
  lat_bins <- np.arange lat_min (lat_max + box_size) box_size ;;
  lon_bins <- np.arange lon_min (lon_max + box_size) box_size ;;
  hist <- np.histogram2d latitudes longitudes lat_bins lon_bins ;;
  Ok (np.count_positive hist).

(** What [calculate_fractal_dimension] returns: (D, r_squared, std_err,
    intercept). *)
Record Fit : Type := {
  fit_D : float;
  fit_r_squared : float;
  fit_std_err : float;
  fit_intercept : float
}.

Definition calculate_fractal_dimension (lib : MathLib)
    (box_sizes : list float) (counts : list nat) : outcome Fit :=
  let log_r := map (log10 lib) box_sizes in
  let log_N := map (fun c => log10 lib (of_int (Z.of_nat c))) counts in
  res <- stats.linregress lib log_r log_N ;;
  Ok {| fit_D := - stats.slope res;
        fit_r_squared := power lib (stats.rvalue res) 2;
        fit_std_err := stats.stderr res;
        fit_intercept := stats.intercept res |}.

(** The dictionary [box_counting] returns; [details] is present when
    [return_details] is set. *)
Record Details : Type := {
  box_sizes : list float;
  counts : list nat;
  intercept : float
}.

Record Results : Type := {
  D : float;
  r_squared : float;
  std_error : float;
  n_points : nat;
  lat_range : float;
  lon_range : float;
  details : option Details
}.

(** Boolean-mask indexing, [xs[mask]]. *)
Definition select {A} (mask : list bool) (xs : list A) : list A :=
  map snd (filter fst (combine mask xs)).

(** The state of one call after the counting loop: the scales, their
    counts, and the mask of the scales that are kept. *)
Definition valid_mask (counts : list nat) : list bool :=
  map (fun c => (0 <? c)%nat) counts.

(** The box sizes of one call: [np.logspace(np.log10(min_box_size),
    np.log10(max_box_size), num=num_scales)]. *)
Definition scale_series (lib : MathLib) (min_box_size max_box_size : float) (num_scales : Z)
  : outcome (list float) :=
  np.logspace lib (log10 lib min_box_size) (log10 lib max_box_size) num_scales.

Definition box_counting (lib : MathLib)
    (latitudes longitudes : list float)
    (min_box_size : float) (max_box_size : option float)
    (num_scales : Z) (return_details : bool) : M Results :=
  _ <~ lift (validate_data latitudes longitudes) ;;
  lat_max <~ lift (np.amax latitudes) ;;
  lat_min <~ lift (np.amin latitudes) ;;
  lon_max <~ lift (np.amax longitudes) ;;
  lon_min <~ lift (np.amin longitudes) ;;
  let lat_range := lat_max - lat_min in
  let lon_range := lon_max - lon_min in
  let max_box_size :=
    match max_box_size with
    | None => py_min lat_range lon_range / 4
    | Some m => m
    end in
  if max_box_size <=? min_box_size
  then lift (Raise (ValueError MinBoxNotLessThanMax))
  else
    sizes <~ lift (scale_series lib min_box_size max_box_size num_scales) ;;
    cnts <~ lift (omap (get_box_counts latitudes longitudes) sizes) ;;
    let mask := valid_mask cnts in
    _ <~ when (length (filter (fun b => b) mask) <? 3)%nat (warn TooFewValidBoxSizes) ;;
    let box_sizes_valid := select mask sizes in
    let counts_valid := select mask cnts in
    fit <~ lift (calculate_fractal_dimension lib box_sizes_valid counts_valid) ;;
    mret {| D := fit_D fit;
            r_squared := fit_r_squared fit;
            std_error := fit_std_err fit;
            n_points := length latitudes;
            lat_range := lat_range;
            lon_range := lon_range;
            details := if return_details
                       then Some {| box_sizes := box_sizes_valid;
                                    counts := counts_valid;
                                    intercept := fit_intercept fit |}
                       else None |}.

(** ** A reference library, for running the engine

    The logarithm at the arguments the examples below use (the values
    are those of the C library, correctly rounded), the power for the
    exponents 0, 1, 2, ... by repeated multiplication (exact as long as
    the products are float64 numbers), the mean and the covariance with
    their sums taken from left to right. *)
Definition ref_log10 (x : float) : float :=
  if x =? 1 then 0
  else if x =? 2 then 0.3010299956639812
  else if x =? 3 then 0.47712125471966244
  else if x =? 4 then 0.6020599913279624
  else if x =? 10 then 1
  else if x =? 100 then 2
  else if x =? 100.00000000000001 then 2
  else nan.

Fixpoint pow_nat (b : float) (k : nat) : float :=
  match k with
  | O => 1
  | S k' => pow_nat b k' * b
  end.

Definition ref_power (b y : float) : float :=
  match Prim2SF y, ceiling (Prim2SF y) with
  | S754_zero _, _ => 1
  | S754_finite false _ _, Some k =>
      if (of_int k =? y) && (k <=? 22)%Z then pow_nat b (Z.to_nat k) else nan
  | _, _ => nan
  end.

Definition fsum (xs : list float) : float := fold_left add xs 0.

Definition ref_mean (xs : list float) : float := fsum xs / of_int (Z.of_nat (length xs)).

Definition ref_cov (xs ys : list float) : float * float * float :=
  let mx := ref_mean xs in
  let my := ref_mean ys in
  let dx := map (fun x => x - mx) xs in
  let dy := map (fun y => y - my) ys in
  let f := 1 / of_int (Z.of_nat (length xs)) in
  let dot a b := fsum (map (fun p => fst p * snd p) (combine a b)) in
  (dot dx dx * f, dot dx dy * f, dot dy dy * f).

Definition ref_lib : MathLib :=
  {| log10 := ref_log10; power := ref_power; mean := ref_mean; cov := ref_cov |}.

(** ** What the specification asks of the inputs *)

(** The spread of a coordinate array, [xs.max() - xs.min()]. *)
Definition extent (xs : list float) : float :=
  match xs with
  | [] => 0
  | x :: r => fold_left np.maximum r x - fold_left np.minimum r x
  end.

(** The largest box size of a call: the one given, or a quarter of the
    smaller extent. *)
Definition effective_max_box_size (lats lons : list float) (max_box_size : option float)
  : float :=
  match max_box_size with
  | None => py_min (extent lats) (extent lons) / 4
  | Some m => m
  end.

(** Malformed coordinate input, in the words of the specification. *)
Definition malformed (latitudes longitudes : list float) : Prop :=
  (latitudes = [] /\ longitudes = [])
  \/ length latitudes <> length longitudes
  \/ (exists x, In x (latitudes ++ longitudes) /\ is_finite x = false)
  \/ (exists x, In x latitudes /\ (90 <? abs x) = true)
  \/ (exists x, In x longitudes /\ (180 <? abs x) = true).

(** The exceptions that are the specification's ValidationError and
    ParameterError. *)
Definition is_validation_error (e : exn) : bool :=
  match e with
  | ValueError CoordinateArraysEmpty
  | ValueError ArraysLengthMismatch
  | ValueError CoordinatesNotFinite
  | ValueError LatitudeOutOfRange
  | ValueError LongitudeOutOfRange => true
  | _ => false
  end.

Definition is_parameter_error (e : exn) : bool :=
  match e with
  | ValueError MinBoxNotLessThanMax => true
  | _ => false
  end.

(** ** Definitions used in the proofs *)

(** The value of a finite float in units of 2^-1074, the spacing of the
    smallest numbers of the format: an integer. *)
Definition units_SF (f : spec_float) : Z :=
  match f with
  | S754_finite s m e => cond_Zopp s (Zpos m * 2 ^ (e + 1074))
  | _ => 0
  end.

Definition units (x : float) : Z := units_SF (Prim2SF x).

Definition finite_SF (f : spec_float) : bool :=
  match f with
  | S754_zero _ | S754_finite _ _ _ => true
  | _ => false
  end.

(** Neither negative nor NaN. *)
Definition nonneg_SF (f : spec_float) : bool :=
  match f with
  | S754_zero _ | S754_finite false _ _ | S754_infinity false => true
  | _ => false
  end.

(** The inner bins of [histogram2d], from the bin numbers of the samples. *)
Definition inner_bins (ncount : list (nat * nat)) (nx ny : nat) : list (list nat) :=
  map (fun i => map (fun j => length (filter (np.pair_eqb (i, j)) ncount)) (seq 1 ny))
      (seq 1 nx).

(** The number of occupied cells in row [i] of the inner bins. *)
Definition occupied_in_row (ncount : list (nat * nat)) (ny i : nat) : nat :=
  length (filter (fun j => (0 <? length (filter (np.pair_eqb (i, j)) ncount))%nat)
                 (seq 1 ny)).

(** An exception of numpy or scipy: neither of the two kinds the engine
    raises itself. *)
Definition is_library_error (e : exn) : bool :=
  negb (is_validation_error e) && negb (is_parameter_error e).

(** [c] raises nothing but exceptions satisfying [P]. *)
Definition raises_only {A} (c : outcome A) (P : exn -> bool) : Prop :=
  forall e, c = Raise e -> P e = true.

(** The dictionary assembled at the end of a call. *)
Definition assemble (lats lons : list float) (sizes : list float) (cnts : list nat)
    (return_details : bool) (fit : Fit) : Results :=
  {| D := fit_D fit;
     r_squared := fit_r_squared fit;
     std_error := fit_std_err fit;
     n_points := length lats;
     lat_range := extent lats;
     lon_range := extent lons;
     details := if return_details
                then Some {| box_sizes := select (valid_mask cnts) sizes;
                             counts := select (valid_mask cnts) cnts;
                             intercept := fit_intercept fit |}
                else None |}.

(** The warnings after the filter. *)
Definition after_filter (cnts : list nat) (w : list warning) : list warning :=
  if (length (filter (fun b => b) (valid_mask cnts)) <? 3)%nat
  then w ++ [TooFewValidBoxSizes] else w.

(** What the regression returns for fewer than two observations. *)
Definition nan_fit (lib : MathLib) : Fit :=
  {| fit_D := nan; fit_r_squared := power lib nan 2;
     fit_std_err := nan; fit_intercept := nan |}.

(** ** The callers of the engine and the dataset registry *)

(** What the callers can raise: a missing dictionary key or column, or an
    exception of the engine. *)
Inductive pyexn : Type :=
| KeyError (key : string)
| EngineError (e : exn).

Inductive result (A : Type) : Type :=
| Returns (a : A)
| Raises (e : pyexn).
Arguments Returns {A} a.
Arguments Raises {A} e.

(** *** fractal_engine.py: [analyze_csv] *)

(** The file as [pd.read_csv] parses it: numeric columns by name, all of
    one length, a missing cell being NaN. *)
Definition DataFrame : Type := list (string * list float).

(** [data[name]]. *)
Definition column (data : DataFrame) (name : string) : option (list float) :=
  option_map snd (find (fun c => String.eqb (fst c) name) data).

(** [series.dropna().values]. *)
Definition dropna (xs : list float) : list float :=
  filter (fun x => negb (is_nan x)) xs.

(** The outcome of an engine call as its callers see it. *)
Definition wrap {A} (r : outcome A * list warning) : result A * list warning :=
  match r with
  | (Ok a, w) => (Returns a, w)
  | (Raise e, w) => (Raises (EngineError e), w)
  end.

(** [analyze_csv], from the parsed file; the keyword arguments are those
    of [box_counting]. *)
Definition analyze_csv (lib : MathLib) (data : DataFrame) (lat_col lon_col : string)
    (min_box_size : float) (max_box_size : option float) (num_scales : Z) (return_details : bool)
    (w : list warning) : result Results * list warning :=
  match column data lat_col with
  | None => (Raises (KeyError lat_col), w)
  | Some lat =>
      match column data lon_col with
      | None => (Raises (KeyError lon_col), w)
      | Some lon =>
          let latitudes := dropna lat in
          let longitudes := dropna lon in
          let min_len := Nat.min (length latitudes) (length longitudes) in
          let latitudes := firstn min_len latitudes in
          let longitudes := firstn min_len longitudes in
          wrap (box_counting lib latitudes longitudes min_box_size max_box_size
                             num_scales return_details w)
      end
  end.

(** The rows of two columns that hold both values. *)
Definition complete_rows (lat lon : list float) : list (float * float) :=
  filter (fun p => negb (is_nan (fst p)) && negb (is_nan (snd p))) (combine lat lon).

(** *** compare_regions.py and app_v2.py: the yearly dimensions *)

Record Event : Type := {
  ev_year : Z;
  ev_latitude : float;
  ev_longitude : float
}.

Record YearRow : Type := {
  yr_year : Z;
  yr_D : float;
  yr_std_error : float;
  yr_r_squared : float;
  yr_n_events : nat
}.

(** [sorted(df['year'].unique())]: the distinct years in increasing order,
    built by insertion. *)
Fixpoint insert_year (y : Z) (l : list Z) : list Z :=
  match l with
  | [] => [y]
  | x :: r => if (y <? x)%Z then y :: l
              else if (y =? x)%Z then l
              else x :: insert_year y r
  end.

Definition sorted_years (events : list Event) : list Z :=
  fold_right insert_year [] (map ev_year events).

(** [df[df['year'] == year]]. *)
Definition year_data (events : list Event) (year : Z) : list Event :=
  filter (fun e => (ev_year e =? year)%Z) events.

(** The [box_counting] call of both yearly loops. *)
Definition yearly_call (lib : MathLib) (data : list Event) : M Results :=
  box_counting lib (map ev_latitude data) (map ev_longitude data) 0.1 None 15 false.

Definition year_row (year : Z) (r : Results) : YearRow :=
  {| yr_year := year; yr_D := D r; yr_std_error := std_error r;
     yr_r_squared := r_squared r; yr_n_events := n_points r |}.

(** The loop of [calculate_yearly_fractal_dimensions] over the years that
    are left: the rows appended and the years for which the exception was
    printed.  The module ignores warnings ([warnings.filterwarnings]). *)
Fixpoint yearly_loop (lib : MathLib) (events : list Event) (years : list Z)
  : list YearRow * list (Z * exn) :=
  match years with
  | [] => ([], [])
  | year :: rest =>
      let data := year_data events year in
      let (rows, printed) := yearly_loop lib events rest in
      if (length data <? 10)%nat then (rows, printed)
      else
        match fst (yearly_call lib data []) with
        | Ok r => (year_row year r :: rows, printed)
        | Raise e => (rows, (year, e) :: printed)
        end
  end.

Definition calculate_yearly_fractal_dimensions (lib : MathLib) (events : list Event)
  : list YearRow * list (Z * exn) :=
  yearly_loop lib events (sorted_years events).

(** The loop of [calculate_yearly_d] (app_v2.py): exceptions are dropped
    silently, warnings are emitted. *)
Fixpoint yearly_d_loop (lib : MathLib) (events : list Event) (years : list Z)
    (w : list warning) : list YearRow * list warning :=
  match years with
  | [] => ([], w)
  | year :: rest =>
      let data := year_data events year in
      if (10 <=? length data)%nat then
        match yearly_call lib data w with
        | (Ok r, w') =>
            let (rows, w'') := yearly_d_loop lib events rest w' in
            (year_row year r :: rows, w'')
        | (Raise _, w') => yearly_d_loop lib events rest w'
        end
      else yearly_d_loop lib events rest w
  end.

(** [calculate_yearly_d]; [None] for the frame stands for a frame without
    a 'year' column, [None] for the result is Python's None. *)
Definition calculate_yearly_d (lib : MathLib) (df : option (list Event)) (w : list warning)
  : option (list YearRow) * list warning :=
  match df with
  | None => (None, w)
  | Some events =>
      let (rows, w') := yearly_d_loop lib events (sorted_years events) w in
      (match rows with [] => None | _ => Some rows end, w')
  end.

(** *** data_registry.py *)

(** The "fractal_analysis" entry of a dataset. *)
Record Analysis : Type := {
  an_D : option float;
  an_r_squared : option float;
  an_std_error : option float
}.

(** What the caller of [add_dataset] supplies. *)
Record Entry : Type := {
  en_name : string;
  en_filepath : string;
  en_region : string;
  en_category : string;
  en_min_lat : float;
  en_max_lat : float;
  en_min_lon : float;
  en_max_lon : float;
  en_start_date : string;
  en_end_date : string;
  en_min_magnitude : float;
  en_event_count : Z;
  en_fractal_d : option float;
  en_r_squared : option float;
  en_std_error : option float
}.

(** A dataset of the registry. *)
Record Dataset : Type := {
  ds_id : nat;
  ds_name : string;
  ds_filepath : string;
  ds_region : string;
  ds_category : string;
  ds_bounds : float * float * float * float;
  ds_time_range : string * string;
  ds_min_magnitude : float;
  ds_event_count : Z;
  ds_fractal_analysis : Analysis;
  ds_created_at : string
}.

(** The dictionary of the registry: its "datasets" key may be absent. *)
Record Registry : Type := {
  datasets : option (list Dataset)
}.

(** The file data_registry.json: absent, not readable as JSON, or holding
    a registry. *)
Inductive registry_file : Type :=
| NoFile
| Unreadable
| Holds (r : Registry).

Definition load_registry (file : registry_file) : Registry :=
  match file with
  | Holds r => r
  | NoFile | Unreadable => {| datasets := Some [] |}
  end.

Definition save_registry (r : Registry) (file : registry_file) : registry_file :=
  Holds r.

Definition new_dataset (id : nat) (e : Entry) (now : string) : Dataset :=
  {| ds_id := id;
     ds_name := en_name e;
     ds_filepath := en_filepath e;
     ds_region := en_region e;
     ds_category := en_category e;
     ds_bounds := (en_min_lat e, en_max_lat e, en_min_lon e, en_max_lon e);
     ds_time_range := (en_start_date e, en_end_date e);
     ds_min_magnitude := en_min_magnitude e;
     ds_event_count := en_event_count e;
     ds_fractal_analysis := {| an_D := en_fractal_d e;
                               an_r_squared := en_r_squared e;
                               an_std_error := en_std_error e |};
     ds_created_at := now |}.

(** [add_dataset]; [now] is [datetime.now().isoformat()]. *)
Definition add_dataset (e : Entry) (now : string) (file : registry_file)
  : result Dataset * registry_file :=
  match datasets (load_registry file) with
  | None => (Raises (KeyError "datasets"%string), file)
  | Some l =>
      let dataset := new_dataset (length l + 1) e now in
      (Returns dataset, save_registry {| datasets := Some (l ++ [dataset]) |} file)
  end.

Definition get_all_datasets (file : registry_file) : list Dataset :=
  match datasets (load_registry file) with
  | None => []
  | Some l => l
  end.

Definition get_dataset_by_name (name : string) (file : registry_file) : option Dataset :=
  find (fun ds => String.eqb (ds_name ds) name) (get_all_datasets file).

Definition with_analysis (ds : Dataset) (a : Analysis) : Dataset :=
  {| ds_id := ds_id ds;
     ds_name := ds_name ds;
     ds_filepath := ds_filepath ds;
     ds_region := ds_region ds;
     ds_category := ds_category ds;
     ds_bounds := ds_bounds ds;
     ds_time_range := ds_time_range ds;
     ds_min_magnitude := ds_min_magnitude ds;
     ds_event_count := ds_event_count ds;
     ds_fractal_analysis := a;
     ds_created_at := ds_created_at ds |}.

(** The loop of [update_dataset_analysis]: the first dataset of that name
    gets the new analysis; [None] when there is none. *)
Fixpoint update_first (name : string) (a : Analysis) (l : list Dataset) : option (list Dataset) :=
  match l with
  | [] => None
  | ds :: r =>
      if String.eqb (ds_name ds) name then Some (with_analysis ds a :: r)
      else option_map (cons ds) (update_first name a r)
  end.

Definition update_dataset_analysis (name : string) (fractal_d r_squared std_error : float)
    (file : registry_file) : result bool * registry_file :=
  match datasets (load_registry file) with
  | None => (Raises (KeyError "datasets"%string), file)
  | Some l =>
      match update_first name {| an_D := Some fractal_d;
                                 an_r_squared := Some r_squared;
                                 an_std_error := Some std_error |} l with
      | Some l' => (Returns true, save_registry {| datasets := Some l' |} file)
      | None => (Returns false, file)
      end
  end.

Definition delete_dataset (name : string) (file : registry_file) : result unit * registry_file :=
  match datasets (load_registry file) with
  | None => (Raises (KeyError "datasets"%string), file)
  | Some l =>
      (Returns tt,
       save_registry
         {| datasets := Some (filter (fun ds => negb (String.eqb (ds_name ds) name)) l) |}
         file)
  end.

(** [s.replace(c, by)] for a one-character [c]. *)
Fixpoint replace_char (c : ascii) (by_ : string) (s : string) : string :=
  match s with
  | EmptyString => EmptyString
  | String a r =>
      if Ascii.eqb a c then String.append by_ (replace_char c by_ r)
      else String a (replace_char c by_ r)
  end.

(** [generate_filename].  A [string] is a list of bytes: the model is that
    of the function on ASCII text, where [s[:10]] is the first ten bytes. *)
Definition generate_filename (region category start_date end_date : string) (is_custom : bool)
  : string :=
  let region_clean :=
    replace_char "/"%char "-"%string
      (replace_char ")"%char ""%string
         (replace_char "("%char ""%string
            (replace_char " "%char "_"%string region))) in
  let start_short := String.substring 0 10 start_date in
  let end_short := String.substring 0 10 end_date in
  if is_custom
  then String.append "Custom_Region_"
         (String.append start_short (String.append "_to_" end_short))
  else String.append region_clean
         (String.append "_"
            (String.append start_short (String.append "_to_" end_short))).

(** Does the character occur in the string? *)
Fixpoint occurs (c : ascii) (s : string) : bool :=
  match s with
  | EmptyString => false
  | String a r => Ascii.eqb a c || occurs c r
  end.

(** Does the loop keep the year? *)
Definition year_kept (lib : MathLib) (events : list Event) (year : Z) : bool :=
  (10 <=? length (year_data events year))%nat
  && match fst (yearly_call lib (year_data events year) []) with
     | Ok _ => true
     | Raise _ => false
     end.

(** Does the loop print an exception for the year? *)
Definition year_failed (lib : MathLib) (events : list Event) (year : Z) : bool :=
  (10 <=? length (year_data events year))%nat
  && match fst (yearly_call lib (year_data events year) []) with
     | Ok _ => false
     | Raise _ => true
     end.

(** Are the ids the positions, from 1? *)
Definition well_numbered (file : registry_file) : Prop :=
  map ds_id (get_all_datasets file) = seq 1 (length (get_all_datasets file)).


(** ** Sample inputs *)

(** A call on the points (0, 0), (1.5, 1.5), (30, 30) with [n] scales
    between 1 and 100, and what it returns. *)
Definition sample_call (n : Z) : outcome Results * list warning :=
  box_counting ref_lib [0; 1.5; 30] [0; 1.5; 30] 1 (Some 100) n true [].

Definition no_result : Results :=
  {| D := nan; r_squared := nan; std_error := nan; n_points := 0;
     lat_range := 0; lon_range := 0; details := None |}.

Definition sample_result (n : Z) : Results :=
  match fst (sample_call n) with
  | Ok r => r
  | Raise _ => no_result
  end.

Definition sample_details (n : Z) : Details :=
  match details (sample_result n) with
  | Some d => d
  | None => {| box_sizes := []; counts := []; intercept := nan |}
  end.

(** A file of three rows, the second one empty. *)
Definition sample_frame : DataFrame :=
  [("latitude"%string, [0; nan; 30]);
   ("longitude"%string, [0; nan; 30])].

(** A file whose first row has no longitude. *)
Definition sample_frame_gap : DataFrame :=
  [("latitude"%string, [0; 1.5; 30]);
   ("longitude"%string, [nan; 1.5; 30])].

(** Ten events of 2020 on the latitude 28. *)
Definition sample_events : list Event :=
  map (fun k => {| ev_year := 2020; ev_latitude := 28;
                   ev_longitude := of_int (Z.of_nat k) |})
      (seq 80 10).

Definition sample_entry (name : string) : Entry :=
  {| en_name := name; en_filepath := "query.csv"; en_region := "Himalayas";
     en_category := "Continental Collision Zones";
     en_min_lat := 26; en_max_lat := 36;
     en_min_lon := 74; en_max_lon := 96;
     en_start_date := "2010-01-01"; en_end_date := "2026-02-02";
     en_min_magnitude := 2.5; en_event_count := 100;
     en_fractal_d := None; en_r_squared := None; en_std_error := None |}.

(** The registry after two additions to a missing file. *)
Definition sample_file : registry_file :=
  snd (add_dataset (sample_entry "b") "2026-02-02T00:00:01"
         (snd (add_dataset (sample_entry "a") "2026-02-02T00:00:00" NoFile))).

(** * Properties *)

(** ** Lemmas on the float64 format *)

Lemma digits2_size (m : positive) : digits2_pos m = Pos.size m.
Proof. induction m; simpl; congruence. Qed.

Lemma valid_finite (s : bool) (m : positive) (e : Z) :
  valid_binary (S754_finite s m e) = true ->
  (-1074 <= e)%Z /\ (Zpos m < 2 ^ 53)%Z /\ ((-1074 < e)%Z -> (2 ^ 52 <= Zpos m)%Z).
Proof.
  unfold SpecFloat.valid_binary, bounded, canonical_mantissa, fexp, SpecFloat.emin.
  change prec with 53%Z. change emax with 1024%Z.
  rewrite digits2_size. intros H. apply andb_prop in H. destruct H as [H _].
  apply Z.eqb_eq in H.
  pose proof (Pos.size_gt m) as G. pose proof (Pos.size_le m) as L.
  assert (G' : (Zpos m < 2 ^ Zpos (Pos.size m))%Z).
  { rewrite <- Pos2Z.inj_pow. lia. }
  assert (L' : (2 ^ Zpos (Pos.size m) <= 2 * Zpos m)%Z).
  { rewrite <- Pos2Z.inj_pow. lia. }
  assert (D : (Zpos (Pos.size m) <= 53)%Z) by lia.
  split; [lia|]. split.
  - pose proof (Z.pow_le_mono_r 2 (Zpos (Pos.size m)) 53). lia.
  - intros He. assert (E : Zpos (Pos.size m) = 53%Z) by lia.
    rewrite E in L'. change (2 ^ 53)%Z with (2 * 2 ^ 52)%Z in L'. lia.
Qed.

Lemma pow_units_pos (e : Z) : (-1074 <= e)%Z -> (0 < 2 ^ (e + 1074))%Z.
Proof. intros. apply Z.pow_pos_nonneg; lia. Qed.

(** On valid finite numbers the comparison of the format is the comparison
    of the values. *)
Lemma finite_compare_pos (m1 m2 : positive) (e1 e2 : Z) :
  valid_binary (S754_finite false m1 e1) = true ->
  valid_binary (S754_finite false m2 e2) = true ->
  match Z.compare e1 e2 with
  | Lt => Lt
  | Gt => Gt
  | Eq => Pos.compare_cont Eq m1 m2
  end = (Zpos m1 * 2 ^ (e1 + 1074) ?= Zpos m2 * 2 ^ (e2 + 1074))%Z.
Proof.
  intros V1 V2.
  destruct (valid_finite _ _ _ V1) as (A1 & B1 & C1).
  destruct (valid_finite _ _ _ V2) as (A2 & B2 & C2).
  pose proof (pow_units_pos e1 A1) as P1. pose proof (pow_units_pos e2 A2) as P2.
  destruct (Z.compare_spec e1 e2) as [->|L|L].
  - change (Pos.compare_cont Eq m1 m2) with (Zpos m1 ?= Zpos m2)%Z.
    symmetry. destruct (Z.compare_spec (Zpos m1) (Zpos m2)) as [E|E|E].
    + rewrite E. apply Z.compare_refl.
    + apply Z.compare_lt_iff. nia.
    + apply Z.compare_gt_iff. nia.
  - symmetry. apply Z.compare_lt_iff.
    replace (e2 + 1074)%Z with ((e2 - e1) + (e1 + 1074))%Z by lia.
    rewrite (Z.pow_add_r 2 (e2 - e1) (e1 + 1074)) by lia.
    assert (T : (2 <= 2 ^ (e2 - e1))%Z).
    { change 2%Z with (2 ^ 1)%Z at 1. apply Z.pow_le_mono_r; lia. }
    specialize (C2 ltac:(lia)). change (2 ^ 53)%Z with (2 * 2 ^ 52)%Z in *.
    assert (U : (Zpos m1 < Zpos m2 * 2 ^ (e2 - e1))%Z) by nia.
    rewrite Z.mul_assoc. apply Z.mul_lt_mono_pos_r; assumption.
  - symmetry. apply Z.compare_gt_iff.
    replace (e1 + 1074)%Z with ((e1 - e2) + (e2 + 1074))%Z by lia.
    rewrite (Z.pow_add_r 2 (e1 - e2) (e2 + 1074)) by lia.
    assert (T : (2 <= 2 ^ (e1 - e2))%Z).
    { change 2%Z with (2 ^ 1)%Z at 1. apply Z.pow_le_mono_r; lia. }
    specialize (C1 ltac:(lia)). change (2 ^ 53)%Z with (2 * 2 ^ 52)%Z in *.
    assert (U : (Zpos m2 < Zpos m1 * 2 ^ (e1 - e2))%Z) by nia.
    rewrite Z.mul_assoc. apply Z.mul_lt_mono_pos_r; assumption.
Qed.

Lemma SFcompare_units (x y : spec_float) :
  valid_binary x = true -> valid_binary y = true ->
  finite_SF x = true -> finite_SF y = true ->
  SFcompare x y = Some (units_SF x ?= units_SF y)%Z.
Proof.
  intros Vx Vy Fx Fy.
  destruct x as [sx| | |sx mx ex]; try discriminate;
    destruct y as [sy| | |sy my ey]; try discriminate; cbn [SFcompare units_SF].
  - reflexivity.
  - destruct (valid_finite _ _ _ Vy) as (A & _). pose proof (pow_units_pos ey A).
    f_equal. symmetry. destruct sy; cbn [cond_Zopp];
      [apply Z.compare_gt_iff|apply Z.compare_lt_iff]; lia.
  - destruct (valid_finite _ _ _ Vx) as (A & _). pose proof (pow_units_pos ex A).
    f_equal. symmetry. destruct sx; cbn [cond_Zopp];
      [apply Z.compare_lt_iff|apply Z.compare_gt_iff]; lia.
  - destruct (valid_finite _ _ _ Vx) as (A1 & _). pose proof (pow_units_pos ex A1).
    destruct (valid_finite _ _ _ Vy) as (A2 & _). pose proof (pow_units_pos ey A2).
    f_equal. destruct sx, sy; cbn [cond_Zopp].
    + assert (Vx' : valid_binary (S754_finite false mx ex) = true) by exact Vx.
      assert (Vy' : valid_binary (S754_finite false my ey) = true) by exact Vy.
      rewrite Z.compare_opp, <- (finite_compare_pos my mx ey ex Vy' Vx').
      rewrite (Z.compare_antisym ex ey).
      destruct (ex ?= ey)%Z; cbn [CompOpp]; try reflexivity.
      symmetry. apply ZC4.
    + symmetry. apply Z.compare_lt_iff. lia.
    + symmetry. apply Z.compare_gt_iff. lia.
    + now apply finite_compare_pos.
Qed.

(** *** The predicates of the format, read on [Prim2SF] *)

Lemma SFcompare_refl (f : spec_float) : f <> S754_nan -> SFcompare f f = Some Eq.
Proof.
  destruct f as [s|s| |s m e]; intros H; try contradiction; cbn [SFcompare].
  - reflexivity.
  - now destruct s.
  - rewrite Z.compare_refl, Pos.compare_cont_refl. now destruct s.
Qed.

Lemma is_nan_SF (x : float) :
  is_nan x = match Prim2SF x with S754_nan => true | _ => false end.
Proof.
  unfold is_nan. rewrite eqb_spec. unfold SFeqb.
  destruct (Prim2SF x) eqn:E; try (rewrite SFcompare_refl by discriminate); reflexivity.
Qed.

Lemma is_zero_SF (x : float) :
  is_zero x = match Prim2SF x with S754_zero _ => true | _ => false end.
Proof.
  unfold is_zero. rewrite eqb_spec. change (Prim2SF zero) with (S754_zero false).
  unfold SFeqb. destruct (Prim2SF x) as [s|s| |s m e]; cbn [SFcompare]; try reflexivity;
    now destruct s.
Qed.

Lemma is_infinity_SF (x : float) :
  is_infinity x = match Prim2SF x with S754_infinity _ => true | _ => false end.
Proof.
  unfold is_infinity. rewrite eqb_spec, abs_spec.
  change (Prim2SF infinity) with (S754_infinity false).
  unfold SFeqb. destruct (Prim2SF x) as [s|s| |s m e]; cbn [SFabs SFcompare]; reflexivity.
Qed.

Lemma is_finite_SF (x : float) : is_finite x = finite_SF (Prim2SF x).
Proof.
  unfold is_finite. rewrite is_nan_SF, is_infinity_SF.
  now destruct (Prim2SF x).
Qed.

(** *** Comparisons of finite numbers *)

Lemma compare_units (x y : float) :
  is_finite x = true -> is_finite y = true ->
  SFcompare (Prim2SF x) (Prim2SF y) = Some (units x ?= units y)%Z.
Proof.
  rewrite !is_finite_SF. intros Fx Fy.
  apply SFcompare_units; auto using Prim2SF_valid.
Qed.

Lemma ltb_units (x y : float) :
  is_finite x = true -> is_finite y = true -> (x <? y) = (units x <? units y)%Z.
Proof.
  intros Fx Fy. rewrite ltb_spec. unfold SFltb. rewrite compare_units by assumption.
  unfold Z.ltb. now destruct (units x ?= units y)%Z.
Qed.

Lemma leb_units (x y : float) :
  is_finite x = true -> is_finite y = true -> (x <=? y) = (units x <=? units y)%Z.
Proof.
  intros Fx Fy. rewrite leb_spec. unfold SFleb. rewrite compare_units by assumption.
  unfold Z.leb. now destruct (units x ?= units y)%Z.
Qed.

Lemma eqb_units (x y : float) :
  is_finite x = true -> is_finite y = true -> (x =? y) = (units x =? units y)%Z.
Proof.
  intros Fx Fy. rewrite eqb_spec. unfold SFeqb. rewrite compare_units by assumption.
  destruct (Z.compare_spec (units x) (units y)) as [E|L|L]; symmetry;
    [apply Z.eqb_eq|apply Z.eqb_neq|apply Z.eqb_neq]; lia.
Qed.

Lemma units_zero (x : float) : is_zero x = true -> units x = 0%Z.
Proof.
  rewrite is_zero_SF. unfold units. now destruct (Prim2SF x).
Qed.

Lemma units_zero_inv (x : float) : is_finite x = true -> units x = 0%Z -> is_zero x = true.
Proof.
  rewrite is_finite_SF, is_zero_SF. unfold units.
  pose proof (Prim2SF_valid x) as V.
  destruct (Prim2SF x) as [s|s| |s m e]; try discriminate; [reflexivity|].
  intros _. cbn [units_SF]. destruct (valid_finite _ _ _ V) as (A & _).
  pose proof (pow_units_pos e A). destruct s; cbn [cond_Zopp]; lia.
Qed.

Lemma zero_finite (x : float) : is_zero x = true -> is_finite x = true.
Proof. rewrite is_zero_SF, is_finite_SF. now destruct (Prim2SF x). Qed.

(** *** Rounding keeps the sign *)

Lemma iter_pos_invariant {A} (P : A -> Prop) (f : A -> A) :
  (forall a, P a -> P (f a)) -> forall n a, P a -> P (iter_pos f n a).
Proof.
  intros Hf. induction n as [n IH|n IH|]; intros a Ha; cbn [iter_pos]; auto.
Qed.

Lemma shr_1_nonneg (mrs : shr_record) : (0 <= shr_m mrs)%Z -> (0 <= shr_m (shr_1 mrs))%Z.
Proof.
  destruct mrs as [m r s]. cbn [shr_m]. intros H.
  destruct m as [|p|p]; [cbn; lia| |lia].
  destruct p; cbn; lia.
Qed.

Lemma shr_fexp_nonneg (m e : Z) (l : location) :
  (0 <= m)%Z -> (0 <= shr_m (fst (shr_fexp prec emax m e l)))%Z.
Proof.
  intros H. unfold shr_fexp, shr.
  assert (R : (0 <= shr_m (shr_record_of_loc m l))%Z).
  { destruct l as [|[]]; cbn; exact H. }
  destruct (fexp prec emax (Zdigits2 m + e) - e)%Z; cbn [fst]; try exact R.
  now apply (iter_pos_invariant (fun mrs => (0 <= shr_m mrs)%Z) shr_1 shr_1_nonneg).
Qed.

Lemma round_nearest_even_nonneg (m : Z) (l : location) :
  (0 <= m)%Z -> (0 <= round_nearest_even m l)%Z.
Proof.
  intros H. destruct l as [|[]]; cbn [round_nearest_even]; try lia.
  destruct (Z.even m); lia.
Qed.

Lemma binary_round_aux_nonneg (m e : Z) (l : location) :
  (0 <= m)%Z -> nonneg_SF (binary_round_aux prec emax false m e l) = true.
Proof.
  intros H. unfold binary_round_aux.
  pose proof (shr_fexp_nonneg m e l H) as H1.
  destruct (shr_fexp prec emax m e l) as [mrs' e']. cbn [fst] in H1.
  pose proof (shr_fexp_nonneg _ e' loc_Exact
                (round_nearest_even_nonneg _ (loc_of_shr_record mrs') H1)) as H2.
  destruct (shr_fexp prec emax _ e' loc_Exact) as [mrs'' e'']. cbn [fst] in H2.
  destruct (shr_m mrs'') as [|p|p]; [reflexivity| |lia].
  now destruct (e'' <=? emax - prec)%Z.
Qed.

Lemma binary_normalize_nonneg (z e : Z) :
  (0 <= z)%Z -> nonneg_SF (binary_normalize prec emax z e false) = true.
Proof.
  intros H. destruct z as [|p|p]; [reflexivity| |lia].
  cbn [binary_normalize]. unfold binary_round.
  destruct (shl_align p e _) as [mz ez]. apply binary_round_aux_nonneg. lia.
Qed.

(** *** Subtraction of finite numbers *)

Lemma shl_align_units (m : positive) (e ez : Z) :
  (ez <= e)%Z -> Zpos (fst (shl_align m e ez)) = (Zpos m * 2 ^ (e - ez))%Z.
Proof.
  intros H. unfold shl_align.
  destruct (ez - e)%Z as [|d|d] eqn:E; cbn [fst].
  - replace (e - ez)%Z with 0%Z by lia. lia.
  - lia.
  - replace (e - ez)%Z with (Zpos d) by lia.
    change (Pos.iter xO m d) with (shift_pos d m).
    rewrite shift_pos_correct, Z.pow_pos_fold. lia.
Qed.

(** The difference of two finite numbers is the rounding of an integer
    with the sign of the exact difference. *)
Lemma SFsub_finite (sx sy : bool) (mx my : positive) (ex ey : Z) :
  (-1074 <= ex)%Z -> (-1074 <= ey)%Z ->
  exists z e,
    SF64sub (S754_finite sx mx ex) (S754_finite sy my ey)
    = binary_normalize prec emax z e false
    /\ (z * 2 ^ (e + 1074)
        = units_SF (S754_finite sx mx ex) - units_SF (S754_finite sy my ey))%Z
    /\ (-1074 <= e)%Z.
Proof.
  intros Ax Ay. eexists. exists (Z.min ex ey). split; [reflexivity|]. split; [|lia].
  rewrite !shl_align_units by lia. cbn [units_SF].
  set (ez := Z.min ex ey).
  assert (Ex : (2 ^ (ex + 1074) = 2 ^ (ex - ez) * 2 ^ (ez + 1074))%Z).
  { rewrite <- Z.pow_add_r by lia. f_equal. lia. }
  assert (Ey : (2 ^ (ey + 1074) = 2 ^ (ey - ez) * 2 ^ (ez + 1074))%Z).
  { rewrite <- Z.pow_add_r by lia. f_equal. lia. }
  rewrite Ex, Ey. destruct sx, sy; cbn [cond_Zopp]; ring.
Qed.

Lemma sub_nonneg_SF (x y : spec_float) :
  valid_binary x = true -> valid_binary y = true ->
  finite_SF x = true -> finite_SF y = true ->
  (units_SF y <= units_SF x)%Z -> nonneg_SF (SF64sub x y) = true.
Proof.
  intros Vx Vy Fx Fy H.
  destruct x as [sx| | |sx mx ex]; try discriminate;
    destruct y as [sy| | |sy my ey]; try discriminate.
  - now destruct sx, sy.
  - cbn [units_SF] in H. destruct (valid_finite _ _ _ Vy) as (A & _).
    pose proof (pow_units_pos ey A). destruct sy; cbn [cond_Zopp] in H; [|lia].
    now destruct sx.
  - cbn [units_SF] in H. destruct (valid_finite _ _ _ Vx) as (A & _).
    pose proof (pow_units_pos ex A). destruct sx; cbn [cond_Zopp] in H; [lia|].
    now destruct sy.
  - destruct (valid_finite _ _ _ Vx) as (Ax & _). destruct (valid_finite _ _ _ Vy) as (Ay & _).
    destruct (SFsub_finite sx sy mx my ex ey Ax Ay) as (z & e & -> & E & Ae).
    apply binary_normalize_nonneg. pose proof (pow_units_pos e Ae). nia.
Qed.

Lemma sub_zero_SF (x y : spec_float) :
  valid_binary x = true -> valid_binary y = true ->
  finite_SF x = true -> finite_SF y = true ->
  units_SF x = units_SF y ->
  match SF64sub x y with S754_zero _ => true | _ => false end = true.
Proof.
  intros Vx Vy Fx Fy H.
  destruct x as [sx| | |sx mx ex]; try discriminate;
    destruct y as [sy| | |sy my ey]; try discriminate.
  - now destruct sx, sy.
  - exfalso. cbn [units_SF] in H. destruct (valid_finite _ _ _ Vy) as (A & _).
    pose proof (pow_units_pos ey A). destruct sy; cbn [cond_Zopp] in H; lia.
  - exfalso. cbn [units_SF] in H. destruct (valid_finite _ _ _ Vx) as (A & _).
    pose proof (pow_units_pos ex A). destruct sx; cbn [cond_Zopp] in H; lia.
  - destruct (valid_finite _ _ _ Vx) as (Ax & _). destruct (valid_finite _ _ _ Vy) as (Ay & _).
    destruct (SFsub_finite sx sy mx my ex ey Ax Ay) as (z & e & -> & E & Ae).
    pose proof (pow_units_pos e Ae). assert (z = 0%Z) by nia. now subst z.
Qed.

Lemma nonneg_SF_spec (x : float) :
  nonneg_SF (Prim2SF x) = true -> is_nan x = false /\ (x <? 0) = false.
Proof.
  rewrite is_nan_SF, ltb_spec. change (Prim2SF 0) with (S754_zero false).
  unfold SFltb. destruct (Prim2SF x) as [[]|[]| |[] m e]; try discriminate; auto.
Qed.

(** [x - y] for finite [y <= x]: not NaN, not negative. *)
Lemma sub_nonneg (x y : float) :
  is_finite x = true -> is_finite y = true -> (y <=? x) = true ->
  is_nan (x - y) = false /\ (x - y <? 0) = false.
Proof.
  intros Fx Fy H. rewrite leb_units in H by assumption. apply Z.leb_le in H.
  apply nonneg_SF_spec. rewrite sub_spec.
  rewrite is_finite_SF in Fx, Fy.
  apply sub_nonneg_SF; auto using Prim2SF_valid.
Qed.

(** [x - y] for finite [x == y] is a zero. *)
Lemma sub_equal (x y : float) :
  is_finite x = true -> is_finite y = true -> (x =? y) = true -> is_zero (x - y) = true.
Proof.
  intros Fx Fy H. rewrite eqb_units in H by assumption. apply Z.eqb_eq in H.
  rewrite is_zero_SF, sub_spec. rewrite is_finite_SF in Fx, Fy.
  apply sub_zero_SF; auto using Prim2SF_valid.
Qed.

(** *** Zero and one *)

Lemma div_self_SF (s : bool) (m : positive) (e : Z) :
  SF64div (S754_finite s m e) (S754_finite s m e) = Prim2SF 1.
Proof.
  unfold SF64div, SFdiv, SFdiv_core_binary.
  replace (Zdigits2 (Zpos m) + e - (Zdigits2 (Zpos m) + e))%Z with 0%Z by lia.
  rewrite Z.sub_diag.
  change (Z.min (fexp prec emax 0) 0) with (-53)%Z.
  change (0 - -53)%Z with 53%Z. cbv iota.
  assert (E : Z.div_eucl (Z.shiftl (Zpos m) 53) (Zpos m) = (2 ^ 53, 0)%Z).
  { rewrite Z.shiftl_mul_pow2 by lia.
    pose proof (Z.div_eucl_eq (Zpos m * 2 ^ 53) (Zpos m) ltac:(lia)) as Q.
    pose proof (Z.mod_pos_bound (Zpos m * 2 ^ 53) (Zpos m) ltac:(lia)) as B.
    unfold Z.modulo in B. destruct (Z.div_eucl _ _) as [q r].
    assert (R : r = 0%Z).
    { assert (D : (Zpos m * (2 ^ 53 - q) = r)%Z) by lia.
      assert (C : (2 ^ 53 - q = 0)%Z) by nia. nia. }
    subst r. f_equal. nia. }
  rewrite E, xorb_nilpotent. unfold new_location.
  destruct (Z.even (Zpos m)); vm_compute; reflexivity.
Qed.

(** [b / b] is 1 for a finite [b] that is not a zero. *)
Lemma div_self (b : float) : is_finite b = true -> is_zero b = false -> b / b = 1.
Proof.
  rewrite is_finite_SF, is_zero_SF. intros F Z0.
  apply Prim2SF_inj. rewrite div_spec.
  destruct (Prim2SF b) as [s|s| |s m e]; try discriminate. apply div_self_SF.
Qed.

Lemma add_zero_l (b : float) : is_finite b = true -> is_zero b = false -> 0 + b = b.
Proof.
  rewrite is_finite_SF, is_zero_SF. intros F Z0.
  apply Prim2SF_inj. rewrite add_spec. change (Prim2SF 0) with (S754_zero false).
  destruct (Prim2SF b); try discriminate. reflexivity.
Qed.

Lemma sub_zero_r (b : float) : is_finite b = true -> is_zero b = false -> b - 0 = b.
Proof.
  rewrite is_finite_SF, is_zero_SF. intros F Z0.
  apply Prim2SF_inj. rewrite sub_spec. change (Prim2SF 0) with (S754_zero false).
  destruct (Prim2SF b); try discriminate. reflexivity.
Qed.

(** A zero divided by 4 is a zero. *)
Lemma div_zero_4 (x : float) : is_zero x = true -> is_zero (x / 4) = true.
Proof.
  rewrite !is_zero_SF, div_spec. change (Prim2SF 4) with (S754_finite false 4503599627370496 (-50)).
  destruct (Prim2SF x); try discriminate. reflexivity.
Qed.

(** A zero is below every positive number. *)
Lemma zero_le_positive (x m : float) : is_zero x = true -> (0 <? m) = true -> (x <=? m) = true.
Proof.
  rewrite is_zero_SF, ltb_spec, leb_spec. change (Prim2SF 0) with (S754_zero false).
  unfold SFltb, SFleb.
  destruct (Prim2SF x); try discriminate. intros _.
  destruct (Prim2SF m) as [t|[]| |[] k e]; cbn [SFcompare]; try discriminate; reflexivity.
Qed.

(** [0 * s + x] is [x], up to the sign of a zero, when [s] and [x] are
    finite. *)
Lemma zero_mul_add (s x : float) :
  is_finite s = true -> is_finite x = true -> (0 * s + x =? x) = true.
Proof.
  rewrite !is_finite_SF, eqb_spec, add_spec, mul_spec.
  change (Prim2SF 0) with (S754_zero false). intros Fs Fx. unfold SFeqb.
  destruct (Prim2SF s) as [ss|ss| |ss ms es]; try discriminate;
    destruct (Prim2SF x) as [sx|sx| |sx mx ex]; try discriminate;
    cbn [SF64mul SFmul SF64add SFadd xorb];
    try (destruct ss, sx; reflexivity);
    rewrite SFcompare_refl by discriminate; reflexivity.
Qed.
(** ** Lemmas on the numpy functions *)

(** The minimum and the maximum are attained. *)
Lemma fold_min_in (r : list float) (x : float) : In (fold_left np.minimum r x) (x :: r).
Proof.
  revert x. induction r as [|y r IH]; intros x; simpl.
  - now left.
  - destruct (IH (np.minimum x y)) as [H|H]; [|auto].
    rewrite <- H. unfold np.minimum. destruct (_ || _); auto.
Qed.

Lemma fold_max_in (r : list float) (x : float) : In (fold_left np.maximum r x) (x :: r).
Proof.
  revert x. induction r as [|y r IH]; intros x; simpl.
  - now left.
  - destruct (IH (np.maximum x y)) as [H|H]; [|auto].
    rewrite <- H. unfold np.maximum. destruct (_ || _); auto.
Qed.

Lemma is_finite_not_nan (x : float) : is_finite x = true -> is_nan x = false.
Proof. unfold is_finite. destruct (is_nan x); [discriminate|reflexivity]. Qed.

Lemma minimum_units (a b : float) :
  is_finite a = true -> is_finite b = true ->
  is_finite (np.minimum a b) = true
  /\ units (np.minimum a b) = Z.min (units a) (units b).
Proof.
  intros Fa Fb. unfold np.minimum.
  rewrite (is_finite_not_nan a Fa), orb_false_r, leb_units by assumption.
  destruct (Z.leb_spec (units a) (units b)); split; auto; lia.
Qed.

Lemma maximum_units (a b : float) :
  is_finite a = true -> is_finite b = true ->
  is_finite (np.maximum a b) = true
  /\ units (np.maximum a b) = Z.max (units a) (units b).
Proof.
  intros Fa Fb. unfold np.maximum.
  rewrite (is_finite_not_nan a Fa), orb_false_r, leb_units by assumption.
  destruct (Z.leb_spec (units b) (units a)); split; auto; lia.
Qed.

Lemma fold_min_units (r : list float) (x : float) :
  is_finite x = true -> forallb is_finite r = true ->
  is_finite (fold_left np.minimum r x) = true
  /\ (units (fold_left np.minimum r x) <= units x)%Z.
Proof.
  revert x. induction r as [|y r IH]; intros x Fx Fr; simpl.
  - split; [assumption|lia].
  - simpl in Fr. apply andb_prop in Fr. destruct Fr as [Fy Fr].
    destruct (minimum_units x y Fx Fy) as [F U].
    destruct (IH _ F Fr) as [F' U']. split; [assumption|lia].
Qed.

Lemma fold_max_units (r : list float) (x : float) :
  is_finite x = true -> forallb is_finite r = true ->
  is_finite (fold_left np.maximum r x) = true
  /\ (units x <= units (fold_left np.maximum r x))%Z.
Proof.
  revert x. induction r as [|y r IH]; intros x Fx Fr; simpl.
  - split; [assumption|lia].
  - simpl in Fr. apply andb_prop in Fr. destruct Fr as [Fy Fr].
    destruct (maximum_units x y Fx Fy) as [F U].
    destruct (IH _ F Fr) as [F' U']. split; [assumption|lia].
Qed.

(** The spread of finite coordinates is neither NaN nor negative. *)
Lemma extent_nonneg (xs : list float) :
  forallb is_finite xs = true ->
  is_nan (extent xs) = false /\ (extent xs <? 0) = false.
Proof.
  destruct xs as [|x r]; [intros _; split; reflexivity|].
  cbn [forallb extent]. intros F. apply andb_prop in F. destruct F as [Fx Fr].
  destruct (fold_min_units r x Fx Fr) as [F1 U1].
  destruct (fold_max_units r x Fx Fr) as [F2 U2].
  apply sub_nonneg; try assumption.
  rewrite leb_units by assumption. apply Z.leb_le. lia.
Qed.

(** Finite coordinates that are all equal have a spread of zero. *)
Lemma extent_all_equal (xs : list float) :
  forallb is_finite xs = true ->
  (forall x y, In x xs -> In y xs -> (x =? y) = true) ->
  is_zero (extent xs) = true.
Proof.
  destruct xs as [|x r]; [intros _ _; reflexivity|].
  intros F H. cbn [extent].
  pose proof (fold_max_in r x) as I1. pose proof (fold_min_in r x) as I2.
  rewrite forallb_forall in F.
  apply sub_equal; auto.
Qed.

(** *** Counting occupied cells *)

Lemma filter_map_length {A B} (p : B -> bool) (h : A -> B) (l : list A) :
  length (filter p (map h l)) = length (filter (fun a => p (h a)) l).
Proof.
  induction l as [|a l IH]; simpl; [reflexivity|].
  destruct (p (h a)); simpl; now rewrite IH.
Qed.

Lemma filter_eqb_seq (a s n : nat) :
  (length (filter (fun i => (i =? a)%nat) (seq s n)) <= 1)%nat.
Proof.
  assert (H : forall m t, (a < t)%nat -> filter (fun i => (i =? a)%nat) (seq t m) = []).
  { induction m as [|m IH]; intros t Ht; simpl; [reflexivity|].
    destruct (Nat.eqb_spec t a); [lia|]. apply IH. lia. }
  revert s. induction n as [|n IH]; intros s; simpl; [lia|].
  destruct (Nat.eqb_spec s a) as [->|Hne]; simpl.
  - rewrite H by lia. simpl. lia.
  - apply IH.
Qed.

Lemma filter_le_upto {A} (P Q E : A -> bool) (l : list A) :
  (forall j, P j = true -> Q j = true \/ E j = true) ->
  (length (filter P l) <= length (filter Q l) + length (filter E l))%nat.
Proof.
  intros H. induction l as [|j l IH]; simpl; [lia|].
  specialize (H j).
  destruct (P j), (Q j), (E j); simpl; try lia.
Qed.

Lemma list_sum_le_upto {A} (F G E : A -> nat) (l : list A) :
  (forall i, F i <= G i + E i)%nat ->
  (list_sum (map F l) <= list_sum (map G l) + list_sum (map E l))%nat.
Proof.
  intros H. induction l as [|i l IH]; simpl; [lia|].
  specialize (H i). lia.
Qed.

Lemma list_sum_indicator (a s n : nat) :
  (list_sum (map (fun i => if (i =? a)%nat then 1 else 0)%nat (seq s n)) <= 1)%nat.
Proof.
  pose proof (filter_eqb_seq a s n) as H.
  assert (E : forall l, list_sum (map (fun i => if (i =? a)%nat then 1 else 0)%nat l)
                        = length (filter (fun i => (i =? a)%nat) l)).
  { induction l as [|i l IH]; simpl; [reflexivity|].
    destruct (i =? a)%nat; simpl; now rewrite IH. }
  rewrite E. exact H.
Qed.

Lemma count_positive_rows (ncount : list (nat * nat)) (nx ny : nat) :
  np.count_positive (inner_bins ncount nx ny)
  = list_sum (map (occupied_in_row ncount ny) (seq 1 nx)).
Proof.
  unfold np.count_positive, inner_bins. rewrite map_map.
  f_equal. apply map_ext. intros i. apply filter_map_length.
Qed.

(** No more cells are occupied than there are samples. *)
Lemma count_positive_le (ncount : list (nat * nat)) (nx ny : nat) :
  (np.count_positive (inner_bins ncount nx ny) <= length ncount)%nat.
Proof.
  rewrite count_positive_rows.
  induction ncount as [|[a1 a2] l IH]; simpl.
  - assert (E : forall m, list_sum (map (occupied_in_row [] ny) m) = 0%nat).
    { induction m as [|i m IHm]; simpl; [reflexivity|]. rewrite IHm.
      unfold occupied_in_row. simpl.
      clear. generalize (seq 1 ny). induction l; simpl; auto. }
    rewrite E. lia.
  - pose proof (list_sum_le_upto (occupied_in_row ((a1, a2) :: l) ny)
                  (occupied_in_row l ny)
                  (fun i => if (i =? a1)%nat then 1 else 0)%nat (seq 1 nx)) as H.
    pose proof (list_sum_indicator a1 1 nx) as H1.
    assert (Hrow : forall i, (occupied_in_row ((a1, a2) :: l) ny i
                              <= occupied_in_row l ny i
                                 + (if (i =? a1)%nat then 1 else 0))%nat).
    { intros i. unfold occupied_in_row.
      pose proof (filter_eqb_seq a2 1 ny) as H2.
      destruct (Nat.eqb_spec i a1) as [->|Hne].
      - pose proof (filter_le_upto
                      (fun j => (0 <? length (filter (np.pair_eqb (a1, j)) ((a1, a2) :: l)))%nat)
                      (fun j => (0 <? length (filter (np.pair_eqb (a1, j)) l))%nat)
                      (fun j => (j =? a2)%nat) (seq 1 ny)) as H3.
        assert (Hj : forall j,
                   (0 <? length (filter (np.pair_eqb (a1, j)) ((a1, a2) :: l)))%nat = true ->
                   (0 <? length (filter (np.pair_eqb (a1, j)) l))%nat = true
                   \/ (j =? a2)%nat = true).
        { intros j. simpl. unfold np.pair_eqb at 1. simpl.
          rewrite Nat.eqb_refl. simpl.
          destruct (Nat.eqb_spec j a2); auto. }
        specialize (H3 Hj). lia.
      - assert (E : forall j, filter (np.pair_eqb (i, j)) ((a1, a2) :: l)
                              = filter (np.pair_eqb (i, j)) l).
        { intros j. simpl. unfold np.pair_eqb at 1. simpl.
          destruct (Nat.eqb_spec i a1); [contradiction|reflexivity]. }
        rewrite (filter_ext _ (fun j => (0 <? length (filter (np.pair_eqb (i, j)) l))%nat)).
        + lia.
        + intros j. now rewrite E. }
    specialize (H Hrow). lia.
Qed.

Lemma histogram2d_ok (x y ex ey : list float) (h : list (list nat)) :
  np.histogram2d x y ex ey = Ok h ->
  h = inner_bins
        (map (fun p => (np.bin_number ex (fst p), np.bin_number ey (snd p))) (combine x y))
        (length ex - 1) (length ey - 1).
Proof.
  unfold np.histogram2d.
  destruct (negb (length x =? length y)%nat); [discriminate|].
  destruct (negb (np.nondecreasing ex)); [discriminate|].
  destruct (negb (np.nondecreasing ey)); [discriminate|].
  destruct ex as [|e1 ex]; [discriminate|].
  destruct ey as [|e2 ey]; [discriminate|].
  now intros [= <-].
Qed.

(** Whatever the box size, a returned count is at most the number of points. *)
Lemma get_box_counts_le (lats lons : list float) (b : float) (c : nat) :
  get_box_counts lats lons b = Ok c -> (c <= length lats)%nat.
Proof.
  unfold get_box_counts.
  destruct (np.amin lats); [|discriminate]. cbn [obind].
  destruct (np.amax lats); [|discriminate]. cbn [obind].
  destruct (np.amin lons); [|discriminate]. cbn [obind].
  destruct (np.amax lons); [|discriminate]. cbn [obind].
  destruct (np.arange _ _ b) as [e1|]; [|discriminate]. cbn [obind].
  destruct (np.arange _ _ b) as [e2|]; [|discriminate]. cbn [obind].
  destruct (np.histogram2d lats lons e1 e2) as [h|] eqn:H; [|discriminate]. cbn [obind].
  intros [= <-]. apply histogram2d_ok in H. subst h.
  etransitivity; [apply count_positive_le|].
  rewrite length_map, length_combine. lia.
Qed.

(** ** Which exceptions each stage can raise *)

Lemma raises_only_bind {A B} (c : outcome A) (k : A -> outcome B) (P : exn -> bool) :
  raises_only c P -> (forall a, c = Ok a -> raises_only (k a) P) ->
  raises_only (obind c k) P.
Proof.
  intros Hc Hk e. destruct c as [a|e']; simpl.
  - now apply Hk.
  - intros [= <-]. now apply Hc.
Qed.

Lemma raises_only_omap {A B} (f : A -> outcome B) (xs : list A) (P : exn -> bool) :
  (forall x, raises_only (f x) P) -> raises_only (omap f xs) P.
Proof.
  intros Hf. induction xs as [|x r IH]; simpl.
  - intros e H. discriminate.
  - apply raises_only_bind; [apply Hf|]. intros y _.
    apply raises_only_bind; [exact IH|]. intros ys _ e H. discriminate.
Qed.

Ltac raises_by_cases :=
  intros ? ?;
  repeat match goal with
         | H : context [match ?c with _ => _ end] |- _ => destruct c
         end;
  try discriminate;
  match goal with H : Raise _ = Raise _ |- _ => injection H as <-; reflexivity end.

Lemma amin_raises (xs : list float) : raises_only (np.amin xs) is_library_error.
Proof. unfold np.amin. raises_by_cases. Qed.

Lemma amax_raises (xs : list float) : raises_only (np.amax xs) is_library_error.
Proof. unfold np.amax. raises_by_cases. Qed.

Lemma arange_raises (s e b : float) : raises_only (np.arange s e b) is_library_error.
Proof.
  unfold np.arange. apply raises_only_bind.
  - unfold np.arange_length. raises_by_cases.
  - intros len _ x H. discriminate.
Qed.

Lemma linspace_raises (s e : float) (n : Z) : raises_only (np.linspace s e n) is_library_error.
Proof. unfold np.linspace. raises_by_cases. Qed.

Lemma histogram2d_raises (x y ex ey : list float) :
  raises_only (np.histogram2d x y ex ey) is_library_error.
Proof. unfold np.histogram2d. raises_by_cases. Qed.

Lemma linregress_raises (lib : MathLib) (x y : list float) :
  raises_only (stats.linregress lib x y) is_library_error.
Proof. unfold stats.linregress. raises_by_cases. Qed.

Lemma get_box_counts_raises (lats lons : list float) (b : float) :
  raises_only (get_box_counts lats lons b) is_library_error.
Proof.
  unfold get_box_counts.
  apply raises_only_bind; [apply amin_raises|intros ? _].
  apply raises_only_bind; [apply amax_raises|intros ? _].
  apply raises_only_bind; [apply amin_raises|intros ? _].
  apply raises_only_bind; [apply amax_raises|intros ? _].
  apply raises_only_bind; [apply arange_raises|intros ? _].
  apply raises_only_bind; [apply arange_raises|intros ? _].
  apply raises_only_bind; [apply histogram2d_raises|intros ? _].
  intros e H. discriminate.
Qed.

Lemma scale_series_raises (lib : MathLib) (a b : float) (n : Z) :
  raises_only (scale_series lib a b n) is_library_error.
Proof.
  unfold scale_series, np.logspace.
  apply raises_only_bind; [apply linspace_raises|]. intros y _ e H. discriminate.
Qed.

Lemma calculate_fractal_dimension_raises (lib : MathLib) (bs : list float) (cs : list nat) :
  raises_only (calculate_fractal_dimension lib bs cs) is_library_error.
Proof.
  unfold calculate_fractal_dimension.
  apply raises_only_bind; [apply linregress_raises|]. intros r _ e H. discriminate.
Qed.

Lemma validate_data_raises (latitudes longitudes : list float) :
  raises_only (validate_data latitudes longitudes) is_validation_error.
Proof. unfold validate_data. raises_by_cases. Qed.

(** ** The stages of [box_counting] *)

Lemma validate_data_nonempty (latitudes longitudes : list float) :
  validate_data latitudes longitudes = Ok tt ->
  latitudes <> [] /\ longitudes <> [] /\ length latitudes = length longitudes.
Proof.
  unfold validate_data.
  destruct latitudes as [|x xr], longitudes as [|y yr]; simpl; try discriminate.
  destruct (length xr =? length yr)%nat eqn:E; simpl; [|discriminate].
  apply Nat.eqb_eq in E. intros _. repeat split; try discriminate. now rewrite E.
Qed.

Section Stages.

Variable lib : MathLib.
Variables latitudes longitudes : list float.
Variable min_box_size : float.
Variable max_box_size : option float.
Variable num_scales : Z.
Variable return_details : bool.

Let top := effective_max_box_size latitudes longitudes max_box_size.
Let run := box_counting lib latitudes longitudes min_box_size max_box_size
                        num_scales return_details.

Lemma box_counting_invalid (e : exn) (w : list warning) :
  validate_data latitudes longitudes = Raise e -> run w = (Raise e, w).
Proof.
  intros H. unfold run, box_counting, mbind, lift. now rewrite H.
Qed.

Lemma box_counting_checked (w : list warning) :
  validate_data latitudes longitudes = Ok tt ->
  run w =
  if top <=? min_box_size then (Raise (ValueError MinBoxNotLessThanMax), w)
  else
    match scale_series lib min_box_size top num_scales with
    | Raise e => (Raise e, w)
    | Ok sizes =>
        match omap (get_box_counts latitudes longitudes) sizes with
        | Raise e => (Raise e, w)
        | Ok cnts =>
            match calculate_fractal_dimension lib (select (valid_mask cnts) sizes)
                                              (select (valid_mask cnts) cnts) with
            | Raise e => (Raise e, after_filter cnts w)
            | Ok fit => (Ok (assemble latitudes longitudes sizes cnts return_details fit),
                         after_filter cnts w)
            end
        end
    end.
Proof.
  intros H. destruct (validate_data_nonempty _ _ H) as (H1 & H2 & _).
  unfold run, box_counting, mbind, lift. rewrite H.
  unfold top, effective_max_box_size.
  destruct latitudes as [|x xr]; [contradiction|].
  destruct longitudes as [|y yr]; [contradiction|].
  cbn [np.amax np.amin extent].
  destruct (_ <=? min_box_size); [reflexivity|].
  destruct (scale_series _ _ _ _) as [sizes|e]; [|reflexivity].
  destruct (omap _ sizes) as [cnts|e]; [|reflexivity].
  unfold after_filter, when, warn, mret.
  destruct (length (filter (fun b => b) (valid_mask cnts)) <? 3)%nat;
    destruct (calculate_fractal_dimension _ _ _); reflexivity.
Qed.

(** A call is a result and the warnings it adds to those already emitted. *)
Lemma box_counting_writer (w : list warning) :
  run w = (fst (run []), w ++ snd (run [])).
Proof.
  destruct (validate_data latitudes longitudes) as [[]|e] eqn:H.
  - rewrite !box_counting_checked by assumption.
    destruct (top <=? min_box_size); [cbn; now rewrite app_nil_r|].
    destruct (scale_series _ _ _ _) as [sizes|e]; [|cbn; now rewrite app_nil_r].
    destruct (omap _ sizes) as [cnts|e]; [|cbn; now rewrite app_nil_r].
    unfold after_filter.
    destruct (length (filter (fun b => b) (valid_mask cnts)) <? 3)%nat;
      destruct (calculate_fractal_dimension _ _ _); cbn; now rewrite ?app_nil_r.
  - rewrite !(box_counting_invalid e) by assumption. cbn. now rewrite app_nil_r.
Qed.

(** Past the validation and the size check only the libraries raise. *)
Lemma box_counting_late_raise (w : list warning) (e : exn) :
  validate_data latitudes longitudes = Ok tt ->
  (top <=? min_box_size) = false ->
  fst (run w) = Raise e -> is_library_error e = true.
Proof.
  intros H Hc. rewrite box_counting_checked, Hc by assumption.
  pose proof (scale_series_raises lib min_box_size top num_scales) as R1.
  destruct (scale_series _ _ _ _) as [sizes|e1]; [|cbn; intros [= <-]; now apply R1].
  pose proof (raises_only_omap (get_box_counts latitudes longitudes) sizes is_library_error
                (get_box_counts_raises latitudes longitudes)) as R2.
  destruct (omap _ sizes) as [cnts|e2]; [|cbn; intros [= <-]; now apply R2].
  pose proof (calculate_fractal_dimension_raises lib (select (valid_mask cnts) sizes)
                (select (valid_mask cnts) cnts)) as R3.
  destruct (calculate_fractal_dimension _ _ _) as [fit|e3]; cbn; [discriminate|].
  intros [= <-]. now apply R3.
Qed.

End Stages.

(** ** Validation *)

Lemma validate_data_outcome (latitudes longitudes : list float) :
  validate_data latitudes longitudes = Ok tt
  \/ exists e, validate_data latitudes longitudes = Raise e.
Proof.
  destruct (validate_data latitudes longitudes) as [[]|e]; [now left|right; now exists e].
Qed.

Lemma not_all_finite (xs : list float) :
  forallb is_finite xs = false -> exists x, In x xs /\ is_finite x = false.
Proof.
  induction xs as [|x r IH]; simpl; [discriminate|].
  destruct (is_finite x) eqn:E; simpl.
  - intros H. destruct (IH H) as (y & Hy & Hf). exists y. auto.
  - intros _. exists x. auto.
Qed.

Lemma validate_data_rejects (latitudes longitudes : list float) (e : exn) :
  validate_data latitudes longitudes = Raise e -> malformed latitudes longitudes.
Proof.
  unfold validate_data, malformed.
  destruct ((length latitudes =? 0)%nat || (length longitudes =? 0)%nat) eqn:E0.
  { intros _. destruct latitudes as [|x xr], longitudes as [|y yr];
      simpl in *; try discriminate; auto. }
  destruct (length latitudes =? length longitudes)%nat eqn:E1; cbn [negb].
  2:{ intros _. apply Nat.eqb_neq in E1. auto. }
  destruct (forallb is_finite latitudes) eqn:F1; cbn [negb orb].
  2:{ intros _. destruct (not_all_finite _ F1) as (x & Hin & Hx).
      right; right; left. exists x. split; [apply in_or_app; now left|assumption]. }
  destruct (forallb is_finite longitudes) eqn:F2; cbn [negb].
  2:{ intros _. destruct (not_all_finite _ F2) as (x & Hin & Hx).
      right; right; left. exists x. split; [apply in_or_app; now right|assumption]. }
  destruct (existsb _ latitudes) eqn:G1.
  { intros _. right; right; right; left. now apply existsb_exists in G1. }
  destruct (existsb _ longitudes) eqn:G2.
  { intros _. right; right; right; right. now apply existsb_exists in G2. }
  discriminate.
Qed.

Lemma validate_data_accepts (latitudes longitudes : list float) :
  validate_data latitudes longitudes = Ok tt -> ~ malformed latitudes longitudes.
Proof.
  unfold validate_data, malformed.
  destruct ((length latitudes =? 0)%nat || (length longitudes =? 0)%nat) eqn:E0;
    [discriminate|].
  destruct (length latitudes =? length longitudes)%nat eqn:E1; cbn [negb];
    [|discriminate].
  destruct (forallb is_finite latitudes) eqn:F1; cbn [negb orb]; [|discriminate].
  destruct (forallb is_finite longitudes) eqn:F2; cbn [negb]; [|discriminate].
  destruct (existsb _ latitudes) eqn:G1; [discriminate|].
  destruct (existsb _ longitudes) eqn:G2; [discriminate|].
  intros _ [[-> ->]|[H|[(x & Hin & Hx)|[(x & Hin & Hx)|(x & Hin & Hx)]]]].
  - discriminate.
  - apply Nat.eqb_eq in E1. contradiction.
  - rewrite forallb_forall in F1, F2.
    apply in_app_or in Hin. destruct Hin as [Hin|Hin];
      [specialize (F1 x Hin)|specialize (F2 x Hin)]; congruence.
  - assert (E : existsb (fun x => 90 <? abs x) latitudes = true)
      by (apply existsb_exists; eauto).
    congruence.
  - assert (E : existsb (fun x => 180 <? abs x) longitudes = true)
      by (apply existsb_exists; eauto).
    congruence.
Qed.

Lemma validate_data_finite (latitudes longitudes : list float) :
  validate_data latitudes longitudes = Ok tt ->
  forallb is_finite latitudes = true /\ forallb is_finite longitudes = true.
Proof.
  unfold validate_data.
  destruct (_ || _); [discriminate|]. destruct (negb (_ =? _)%nat); [discriminate|].
  destruct (forallb is_finite latitudes); [|discriminate].
  destruct (forallb is_finite longitudes); [|discriminate]. auto.
Qed.

(** C4.  [box_counting] fails with one of the exceptions of
    [validate_data], with no result and no warning, exactly when the
    coordinate input is malformed: both arrays empty, unequal lengths, a
    non-finite value, a latitude beyond 90 or a longitude beyond 180 in
    absolute value. *)
Theorem validation_error_iff_malformed (lib : MathLib)
    (latitudes longitudes : list float) (min_box_size : float) (max_box_size : option float)
    (num_scales : Z) (return_details : bool) (w : list warning) :
  malformed latitudes longitudes
  <-> exists e, is_validation_error e = true
                /\ box_counting lib latitudes longitudes min_box_size max_box_size
                                num_scales return_details w = (Raise e, w).
Proof.
  split.
  - intros Hm. destruct (validate_data_outcome latitudes longitudes) as [H|[e H]].
    + now apply validate_data_accepts in H.
    + exists e. split; [now apply (validate_data_raises latitudes longitudes e)|].
      now apply box_counting_invalid.
  - intros (e & He & Hrun).
    destruct (validate_data_outcome latitudes longitudes) as [H|[e' H]].
    + exfalso. pose proof Hrun as Hrun'.
      rewrite box_counting_checked in Hrun by assumption.
      destruct (_ <=? min_box_size) eqn:Hc.
      * injection Hrun as <-. discriminate.
      * assert (L : is_library_error e = true).
        { apply (box_counting_late_raise lib latitudes longitudes min_box_size
                   max_box_size num_scales return_details w e H Hc).
          now rewrite Hrun'. }
        unfold is_library_error in L. rewrite He in L. discriminate.
    + now apply validate_data_rejects in H.
Qed.

(** The three rejections the specification lists. *)
Example rejects_empty_arrays :
  box_counting ref_lib [] [] 0.1 None 20 false []
  = (Raise (ValueError CoordinateArraysEmpty), []).
Proof. reflexivity. Qed.

Example rejects_unequal_lengths :
  box_counting ref_lib [10; 20] [70] 0.1 None 20 false []
  = (Raise (ValueError ArraysLengthMismatch), []).
Proof. reflexivity. Qed.

Example rejects_latitude_95 :
  box_counting ref_lib [95] [70] 0.1 None 20 false []
  = (Raise (ValueError LatitudeOutOfRange), []).
Proof. vm_compute. reflexivity. Qed.

(** ** The size check *)

(** C5, counterexample.  With [num_scales = 0] (and valid points, and
    1 = min_box_size < max_box_size = 100) the size check passes and no
    exception is raised at all: the series is empty, the call warns and
    returns a result whose D is NaN. *)
Lemma no_scales_is_not_a_parameter_error :
  box_counting ref_lib [0; 1] [0; 1] 1 (Some 100) 0 false []
  = (Ok {| D := nan; r_squared := nan; std_error := nan; n_points := 2;
           lat_range := 1; lon_range := 1; details := None |},
     [TooFewValidBoxSizes]).
Proof. vm_compute. reflexivity. Qed.

(** C5, amended.  [box_counting] raises its own "min_box_size must be less
    than max_box_size" exactly when the coordinates pass the validation and
    min_box_size >= max_box_size, the latter given or derived as a quarter
    of the smaller extent; nothing has been emitted then.  No other
    configuration is checked. *)
Theorem parameter_error_iff (lib : MathLib)
    (latitudes longitudes : list float) (min_box_size : float) (max_box_size : option float)
    (num_scales : Z) (return_details : bool) (w : list warning) :
  (validate_data latitudes longitudes = Ok tt
   /\ (effective_max_box_size latitudes longitudes max_box_size <=? min_box_size) = true)
  <-> exists e, is_parameter_error e = true
                /\ box_counting lib latitudes longitudes min_box_size max_box_size
                                num_scales return_details w = (Raise e, w).
Proof.
  split.
  - intros [H Hle]. exists (ValueError MinBoxNotLessThanMax). split; [reflexivity|].
    rewrite box_counting_checked by assumption. now rewrite Hle.
  - intros (e & He & Hrun).
    destruct (validate_data_outcome latitudes longitudes) as [H|[e' H]].
    + split; [assumption|]. pose proof Hrun as Hrun'.
      rewrite box_counting_checked in Hrun by assumption.
      destruct (_ <=? min_box_size) eqn:Hc; [reflexivity|].
      exfalso.
      assert (L : is_library_error e = true).
      { apply (box_counting_late_raise lib latitudes longitudes min_box_size
                 max_box_size num_scales return_details w e H Hc).
        now rewrite Hrun'. }
      unfold is_library_error in L. rewrite He, andb_false_r in L. discriminate.
    + exfalso. rewrite (box_counting_invalid _ _ _ _ _ _ _ e') in Hrun by assumption.
      injection Hrun as <-.
      pose proof (validate_data_raises latitudes longitudes e' H) as V.
      destruct e' as [[]|]; discriminate.
Qed.

(** With all latitudes or all longitudes equal the derived largest box
    size is a zero. *)
Lemma flat_extent_top (lats lons : list float) :
  forallb is_finite lats = true -> forallb is_finite lons = true ->
  (forall x y, In x lats -> In y lats -> (x =? y) = true)
  \/ (forall x y, In x lons -> In y lons -> (x =? y) = true) ->
  is_zero (effective_max_box_size lats lons None) = true.
Proof.
  intros F1 F2 Hz. unfold effective_max_box_size. apply div_zero_4.
  destruct (extent_nonneg lats F1) as [N1 P1].
  destruct (extent_nonneg lons F2) as [N2 P2].
  unfold py_min. destruct Hz as [Hz|Hz].
  - pose proof (extent_all_equal lats F1 Hz) as Z1.
    destruct (extent lons <? extent lats) eqn:L; [|assumption].
    exfalso. revert L P2. rewrite !ltb_spec.
    rewrite is_zero_SF in Z1. change (Prim2SF 0) with (S754_zero false).
    destruct (Prim2SF (extent lats)); try discriminate.
    unfold SFltb. destruct (Prim2SF (extent lons)) as [t|[]| |[] m e]; cbn; congruence.
  - pose proof (extent_all_equal lons F2 Hz) as Z2.
    destruct (extent lons <? extent lats) eqn:L; [assumption|].
    revert L P1. rewrite !ltb_spec, !is_zero_SF.
    rewrite is_zero_SF in Z2. change (Prim2SF 0) with (S754_zero false).
    destruct (Prim2SF (extent lons)); try discriminate.
    rewrite is_nan_SF in N1.
    unfold SFltb. destruct (Prim2SF (extent lats)) as [t|[]| |[] m e]; cbn; congruence.
Qed.

(** C10.  When the coordinates pass the validation, all latitudes or all
    longitudes are equal, and max_box_size is omitted, the derived
    max_box_size is 0 and the call raises "min_box_size must be less than
    max_box_size" for every positive min_box_size. *)
Theorem degenerate_extent_rejected (lib : MathLib)
    (latitudes longitudes : list float) (min_box_size : float)
    (num_scales : Z) (return_details : bool) (w : list warning) :
  validate_data latitudes longitudes = Ok tt ->
  (forall x y, In x latitudes -> In y latitudes -> (x =? y) = true)
  \/ (forall x y, In x longitudes -> In y longitudes -> (x =? y) = true) ->
  (0 <? min_box_size) = true ->
  (effective_max_box_size latitudes longitudes None =? 0) = true
  /\ box_counting lib latitudes longitudes min_box_size None num_scales return_details w
     = (Raise (ValueError MinBoxNotLessThanMax), w).
Proof.
  intros H Hz Hmin.
  destruct (validate_data_finite _ _ H) as [F1 F2].
  pose proof (flat_extent_top latitudes longitudes F1 F2 Hz) as E.
  split; [exact E|].
  rewrite box_counting_checked by assumption.
  now rewrite (zero_le_positive _ _ E Hmin).
Qed.

Lemma degenerate_extent_rejected_witness :
  (effective_max_box_size [28; 28] [84; 86] None =? 0) = true
  /\ box_counting ref_lib [28; 28] [84; 86] 0.1 None 20 false []
     = (Raise (ValueError MinBoxNotLessThanMax), []).
Proof.
  apply (degenerate_extent_rejected ref_lib [28; 28] [84; 86]).
  - vm_compute. reflexivity.
  - left. intros x y [<-|[<-|[]]] [<-|[<-|[]]]; vm_compute; reflexivity.
  - vm_compute. reflexivity.
Defined.

(** ** Points that coincide *)

Lemma fold_min_repeat (x : float) (n : nat) :
  is_nan x = false -> fold_left np.minimum (repeat x n) x = x.
Proof.
  intros N. induction n as [|n IH]; [reflexivity|]. cbn [repeat fold_left].
  replace (np.minimum x x) with x; [exact IH|].
  unfold np.minimum. now destruct (_ || _).
Qed.

Lemma fold_max_repeat (x : float) (n : nat) :
  is_nan x = false -> fold_left np.maximum (repeat x n) x = x.
Proof.
  intros N. induction n as [|n IH]; [reflexivity|]. cbn [repeat fold_left].
  replace (np.maximum x x) with x; [exact IH|].
  unfold np.maximum. now destruct (_ || _).
Qed.

(** The edges along an axis whose coordinates are all 0: the single edge
    0 for a finite box size other than zero, none otherwise. *)
Lemma arange_at_origin (b : float) :
  np.arange 0 (0 + b) b
  = if is_finite b && negb (is_zero b) then Ok [0]
    else Raise (ValueError ArangeCannotComputeLength).
Proof.
  destruct (is_finite b && negb (is_zero b)) eqn:C.
  - apply andb_prop in C. destruct C as [F Z0]. apply negb_true_iff in Z0.
    unfold np.arange, np.arange_length.
    rewrite add_zero_l, sub_zero_r, div_self by assumption. reflexivity.
  - unfold np.arange, np.arange_length.
    assert (E : Prim2SF ((0 + b - 0) / b) = S754_nan).
    { rewrite div_spec, sub_spec, add_spec. change (Prim2SF 0) with (S754_zero false).
      rewrite is_finite_SF, is_zero_SF in C.
      destruct (Prim2SF b) as [[]|[]| |s m e]; try discriminate; reflexivity. }
    rewrite is_nan_SF, E. reflexivity.
Qed.

(** The count of points that all lie at (0, 0). *)
Lemma origin_count (n : nat) (b : float) :
  get_box_counts (repeat 0 (S n)) (repeat 0 (S n)) b
  = if is_finite b && negb (is_zero b) then Ok 0%nat
    else Raise (ValueError ArangeCannotComputeLength).
Proof.
  unfold get_box_counts. cbn [repeat np.amin np.amax obind].
  rewrite fold_min_repeat, fold_max_repeat by reflexivity.
  rewrite arange_at_origin.
  destruct (is_finite b && negb (is_zero b)); [|reflexivity].
  cbn [obind]. unfold np.histogram2d. rewrite Nat.eqb_refl. reflexivity.
Qed.

(** C2.  For points that all lie at (0, 0), in particular for the single
    point (0, 0), the grid of [get_box_counts] has one edge along each
    axis, hence no cell, and the count is 0, not 1, for every finite box
    size other than zero; for the other box sizes [np.arange] raises. *)
Theorem zero_extent_no_cell (n : nat) (b : float) :
  (0 < n)%nat ->
  get_box_counts (repeat 0 n) (repeat 0 n) b
  = if is_finite b && negb (is_zero b) then Ok 0%nat
    else Raise (ValueError ArangeCannotComputeLength).
Proof.
  intros Hn. destruct n as [|n]; [lia|]. unfold get_box_counts.
  cbn [repeat np.amin np.amax obind].
  rewrite fold_min_repeat, fold_max_repeat by reflexivity.
  rewrite arange_at_origin.
  destruct (is_finite b && negb (is_zero b)); [|reflexivity].
  cbn [obind]. unfold np.histogram2d. rewrite Nat.eqb_refl. reflexivity.
Qed.

Lemma zero_extent_no_cell_witness :
  get_box_counts (repeat 0 1) (repeat 0 1) 1
  = if is_finite 1 && negb (is_zero 1) then Ok 0%nat
    else Raise (ValueError ArangeCannotComputeLength).
Proof. apply (zero_extent_no_cell 1 1). lia. Defined.

(** Elsewhere the count of a single point depends on how its coordinates
    and the box size round: one edge or two along an axis.  A box larger
    than both ranges does not give one cell either when a range is zero,
    or smaller than the spacing of the numbers around the box size. *)
Example single_point_counts :
  get_box_counts [0] [0] 1 = Ok 0%nat
  /\ get_box_counts [0.1] [0.1] 0.3 = Ok 1%nat
  /\ map (get_box_counts [31.2] [127.3]) [1; 10; 100] = [Ok 1%nat; Ok 1%nat; Ok 0%nat]
  /\ get_box_counts [100] [100] 1e-15 = Raise IndexError.
Proof. vm_compute. repeat split. Qed.

Example large_box_counts :
  get_box_counts [0; 0] [0; 1] 2 = Ok 0%nat
  /\ get_box_counts [0; 1e-20] [0; 1e-20] 0.1 = Ok 0%nat
  /\ get_box_counts [0; 1] [0; 1] 2 = Ok 1%nat.
Proof. vm_compute. repeat split. Qed.

(** ** A single point *)

Lemma omap_origin (n : nat) (sizes : list float) :
  forallb (fun b => is_finite b && negb (is_zero b)) sizes = true ->
  omap (get_box_counts (repeat 0 (S n)) (repeat 0 (S n))) sizes
  = Ok (repeat 0%nat (length sizes)).
Proof.
  induction sizes as [|b r IH]; [reflexivity|].
  cbn [forallb omap length]. intros H. apply andb_prop in H. destruct H as [Hb Hr].
  rewrite origin_count, Hb, (IH Hr). reflexivity.
Qed.

Lemma select_no_count {A} (n : nat) (xs : list A) :
  select (valid_mask (repeat 0%nat n)) xs = [].
Proof.
  revert xs. induction n as [|n IH]; intros xs; [reflexivity|].
  destruct xs as [|x r]; [reflexivity|]. unfold select in *. cbn. apply IH.
Qed.

Lemma validate_data_origin (n : nat) : validate_data (repeat 0 (S n)) (repeat 0 (S n)) = Ok tt.
Proof.
  unfold validate_data. cbn [repeat length Nat.eqb orb negb].
  rewrite Nat.eqb_refl. cbn [negb].
  assert (F : forallb is_finite (repeat 0 (S n)) = true).
  { apply forallb_forall. intros x Hx. apply repeat_spec in Hx. now subst x. }
  assert (R : forall bound, (bound <? abs 0) = false ->
                            existsb (fun x => bound <? abs x) (repeat 0 (S n)) = false).
  { intros bound Hb. destruct (existsb _ _) eqn:E; [|reflexivity].
    apply existsb_exists in E. destruct E as (x & Hx & Hgt).
    apply repeat_spec in Hx. subst x. congruence. }
  change (forallb is_finite (0 :: repeat 0 n)) with (forallb is_finite (repeat 0 (S n))).
  change (existsb (fun x => 90 <? abs x) (0 :: repeat 0 n))
    with (existsb (fun x => 90 <? abs x) (repeat 0 (S n))).
  change (existsb (fun x => 180 <? abs x) (0 :: repeat 0 n))
    with (existsb (fun x => 180 <? abs x) (repeat 0 (S n))).
  rewrite F, !R by reflexivity. reflexivity.
Qed.

(** C3.  For a single point at (0, 0), or any
    number of them, every scale of a series of finite box sizes gets the
    count 0, no scale is left, the warning is emitted, the regression is
    given two empty samples and the call returns NaN as D (and as
    std_error and intercept). *)
Theorem single_point_propagates_nan (lib : MathLib) (n : nat)
    (min_box_size max_box_size : float) (num_scales : Z) (return_details : bool)
    (sizes : list float) (w : list warning) :
  (0 < n)%nat ->
  (max_box_size <=? min_box_size) = false ->
  scale_series lib min_box_size max_box_size num_scales = Ok sizes ->
  forallb (fun b => is_finite b && negb (is_zero b)) sizes = true ->
  box_counting lib (repeat 0 n) (repeat 0 n) min_box_size (Some max_box_size)
               num_scales return_details w
  = (Ok {| D := nan; r_squared := power lib nan 2; std_error := nan;
           n_points := n; lat_range := 0; lon_range := 0;
           details := if return_details
                      then Some {| box_sizes := []; counts := []; intercept := nan |}
                      else None |},
     w ++ [TooFewValidBoxSizes]).
Proof.
  intros Hn Hc Hs Hf. destruct n as [|n]; [lia|].
  rewrite box_counting_checked by apply validate_data_origin.
  cbn [effective_max_box_size]. rewrite Hc, Hs, (omap_origin n sizes Hf).
  rewrite !select_no_count. unfold after_filter.
  assert (E : filter (fun b : bool => b) (valid_mask (repeat 0%nat (length sizes))) = []).
  { induction (length sizes) as [|k IH]; [reflexivity|exact IH]. }
  rewrite E. cbn [length Nat.ltb Nat.leb].
  unfold assemble. rewrite !select_no_count, repeat_length.
  cbn [repeat extent]. rewrite fold_min_repeat, fold_max_repeat by reflexivity.
  reflexivity.
Qed.

Lemma single_point_propagates_nan_witness :
  box_counting ref_lib (repeat 0 1) (repeat 0 1) 1 (Some 100) 3 true []
  = (Ok {| D := nan; r_squared := power ref_lib nan 2; std_error := nan;
           n_points := 1; lat_range := 0; lon_range := 0;
           details := if true
                      then Some {| box_sizes := []; counts := []; intercept := nan |}
                      else None |},
     [] ++ [TooFewValidBoxSizes]).
Proof.
  apply (single_point_propagates_nan ref_lib 1 1 100 3 true [1; 10; 100] []).
  - lia.
  - vm_compute. reflexivity.
  - vm_compute. reflexivity.
  - vm_compute. reflexivity.
Defined.

(** Away from the origin a single point can keep scales: here the counts
    are 1, 1 and 0, two scales are left, and the regression on the equal
    counts returns a slope of zero and NaN as its correlation. *)
Example single_point_off_origin :
  box_counting ref_lib [31.2] [127.3] 1 (Some 100) 3 true []
  = (Ok {| D := -0; r_squared := nan; std_error := 0;
           n_points := 1; lat_range := 0; lon_range := 0;
           details := Some {| box_sizes := [1; 10]; counts := [1%nat; 1%nat];
                              intercept := 0 |} |},
     [TooFewValidBoxSizes]).
Proof. vm_compute. reflexivity. Qed.

(** ** The scale series *)








Lemma scale_series_length (lib : MathLib) (a b : float) (n : Z) (sizes : list float) :
  scale_series lib a b n = Ok sizes -> length sizes = Z.to_nat n.
Proof.
  unfold scale_series, np.logspace, np.linspace.
  destruct (n <? 0)%Z; [discriminate|]. cbn [obind].
  intros [= <-]. now rewrite !length_map, length_seq.
Qed.




(** Two scales between 100 and the next number above it coincide: the
    series is not strictly increasing. *)
Example two_scales_coincide :
  (100 <? 100.00000000000001) = true
  /\ scale_series ref_lib 100 100.00000000000001 2 = Ok [100; 100].
Proof. vm_compute. split; reflexivity. Qed.

(** With the reference library the three scales between 1 and 100 are
    1, 10 and 100. *)
Example three_scales : scale_series ref_lib 1 100 3 = Ok [1; 10; 100].
Proof. vm_compute. reflexivity. Qed.

(** ** The filter and the regression *)

Lemma omap_length {A B} (f : A -> outcome B) (xs : list A) (ys : list B) :
  omap f xs = Ok ys -> length ys = length xs.
Proof.
  revert ys. induction xs as [|x r IH]; simpl; intros ys.
  - now intros [= <-].
  - destruct (f x); simpl; [|discriminate].
    destruct (omap f r) as [yr|]; simpl; [|discriminate].
    intros [= <-]. simpl. f_equal. now apply IH.
Qed.

Lemma select_length {A} (mask : list bool) (xs : list A) :
  length mask = length xs ->
  length (select mask xs) = length (filter (fun b => b) mask).
Proof.
  unfold select. rewrite length_map. revert xs.
  induction mask as [|b m IH]; intros [|x r]; simpl; try discriminate; [reflexivity|].
  intros [= H]. destruct b; simpl; now rewrite IH.
Qed.

Lemma valid_mask_length (cnts : list nat) : length (valid_mask cnts) = length cnts.
Proof. apply length_map. Qed.

Lemma SFcompare_antisym (x y : spec_float) :
  SFcompare y x = option_map CompOpp (SFcompare x y).
Proof.
  destruct x as [sx|sx| |sx mx ex], y as [sy|sy| |sy my ey]; cbn [SFcompare option_map];
    try reflexivity; try (destruct sx; reflexivity); try (destruct sy; reflexivity);
    try (destruct sx, sy; reflexivity).
  f_equal. rewrite (Z.compare_antisym ex ey), (ZC4 my mx).
  destruct sx, sy; try reflexivity; destruct (ex ?= ey)%Z; cbn [CompOpp]; reflexivity.
Qed.

(** Of two numbers that are not NaN and not equal, the larger and the
    smaller are not equal. *)
Lemma maximum_minimum_distinct (a b : float) :
  is_nan a = false -> is_nan b = false -> (a =? b) = false ->
  (np.maximum a b =? np.minimum a b) = false.
Proof.
  intros Na Nb E. unfold np.maximum, np.minimum. rewrite Na, !orb_false_r.
  assert (E' : (b =? a) = false).
  { rewrite eqb_spec in *. unfold SFeqb in *.
    rewrite (SFcompare_antisym (Prim2SF a) (Prim2SF b)).
    destruct (SFcompare (Prim2SF a) (Prim2SF b)) as [[]|]; try discriminate; reflexivity. }
  assert (T : (b <=? a) = false -> (a <=? b) = true).
  { rewrite !leb_spec. unfold SFleb.
    rewrite (SFcompare_antisym (Prim2SF a) (Prim2SF b)).
    rewrite is_nan_SF in Na, Nb.
    destruct (SFcompare (Prim2SF a) (Prim2SF b)) as [[]|] eqn:C; cbn [option_map CompOpp];
      try discriminate; try reflexivity.
    destruct (Prim2SF a), (Prim2SF b); discriminate. }
  assert (A : (b <=? a) = true -> (a <=? b) = true -> (a =? b) = true).
  { rewrite !leb_spec, eqb_spec. unfold SFleb, SFeqb.
    rewrite (SFcompare_antisym (Prim2SF a) (Prim2SF b)).
    destruct (SFcompare (Prim2SF a) (Prim2SF b)) as [[]|]; cbn [option_map CompOpp];
      try discriminate; reflexivity. }
  destruct (b <=? a) eqn:L1.
  - destruct (a <=? b) eqn:L2; [|exact E]. rewrite A in E by reflexivity. discriminate.
  - rewrite T by reflexivity. exact E'.
Qed.

(** The regression on fewer than two observations. *)
Lemma calculate_fractal_dimension_small (lib : MathLib) (bs : list float) (cs : list nat) :
  length bs = length cs -> (length bs <= 1)%nat ->
  calculate_fractal_dimension lib bs cs = Ok (nan_fit lib).
Proof.
  intros Hlen H. unfold calculate_fractal_dimension, stats.linregress.
  rewrite !length_map, Hlen, Nat.eqb_refl. cbn [negb].
  destruct (_ || _); [reflexivity|].
  destruct bs as [|b [|b' r]]; cbn [map]; try reflexivity. cbn [length] in H. lia.
Qed.

(** The regression on two observations with distinct abscissas. *)
Lemma calculate_fractal_dimension_two (lib : MathLib) (b1 b2 : float) (c1 c2 : nat) :
  (log10 lib b1 =? log10 lib b2) = false ->
  exists fit, calculate_fractal_dimension lib [b1; b2] [c1; c2] = Ok fit.
Proof.
  intros H. unfold calculate_fractal_dimension, stats.linregress.
  cbn [map length Nat.eqb negb existsb fold_left].
  destruct (is_nan (log10 lib b1)) eqn:N1; [eexists; reflexivity|].
  destruct (is_nan (log10 lib b2)) eqn:N2; [eexists; reflexivity|].
  cbn [orb]. destruct (_ || _); [eexists; reflexivity|].
  rewrite maximum_minimum_distinct by assumption.
  destruct (cov lib _ _) as [[ssxm ssxym] ssym]. eexists. reflexivity.
Qed.

(** X23.  When a validated call passes the size check, builds its
    scales and counts, and fewer than three scales pass the filter, the
    warning is emitted; the call returns the all-NaN fit when no scale or
    one scale is left, and returns a fit when two scales are left whose
    logarithms differ. *)
Theorem few_survivors_fit (lib : MathLib)
    (latitudes longitudes : list float) (min_box_size : float) (max_box_size : option float)
    (num_scales : Z) (return_details : bool) (w : list warning)
    (sizes : list float) (cnts : list nat) :
  let top := effective_max_box_size latitudes longitudes max_box_size in
  let kept := select (valid_mask cnts) sizes in
  let run := box_counting lib latitudes longitudes min_box_size max_box_size
                          num_scales return_details w in
  validate_data latitudes longitudes = Ok tt ->
  (top <=? min_box_size) = false ->
  scale_series lib min_box_size top num_scales = Ok sizes ->
  omap (get_box_counts latitudes longitudes) sizes = Ok cnts ->
  (length kept < 3)%nat ->
  snd run = w ++ [TooFewValidBoxSizes]
  /\ ((length kept <= 1)%nat ->
      fst run = Ok (assemble latitudes longitudes sizes cnts return_details (nan_fit lib)))
  /\ (forall b1 b2, kept = [b1; b2] -> (log10 lib b1 =? log10 lib b2) = false ->
      exists fit, fst run = Ok (assemble latitudes longitudes sizes cnts return_details fit)).
Proof.
  intros top kept run V C S1 S2 K. unfold run.
  rewrite box_counting_checked by assumption. fold top. rewrite C, S1, S2.
  pose proof (omap_length _ _ _ S2) as Hlen.
  assert (L1 : length kept = length (select (valid_mask cnts) cnts)).
  { unfold kept. rewrite !select_length; [reflexivity| |]; now rewrite valid_mask_length. }
  assert (L2 : length kept = length (filter (fun b => b) (valid_mask cnts))).
  { unfold kept. apply select_length. now rewrite valid_mask_length. }
  fold kept. unfold after_filter. rewrite <- L2.
  destruct (Nat.ltb_spec (length kept) 3); [|lia].
  split; [destruct (calculate_fractal_dimension _ _ _); reflexivity|]. split.
  - intros K1. now rewrite calculate_fractal_dimension_small.
  - intros b1 b2 E Hne. rewrite E in *.
    destruct (select (valid_mask cnts) cnts) as [|c1 [|c2 [|c3 r]]]; try discriminate.
    destruct (calculate_fractal_dimension_two lib b1 b2 c1 c2 Hne) as [fit ->].
    now exists fit.
Qed.

Lemma few_survivors_fit_witness :
  snd (sample_call 2) = [] ++ [TooFewValidBoxSizes]
  /\ ((length (select (valid_mask [3; 1]%nat) [1; 100]) <= 1)%nat ->
      fst (sample_call 2)
      = Ok (assemble [0; 1.5; 30] [0; 1.5; 30] [1; 100] [3; 1]%nat true (nan_fit ref_lib)))
  /\ (forall b1 b2, select (valid_mask [3; 1]%nat) [1; 100] = [b1; b2] ->
      (log10 ref_lib b1 =? log10 ref_lib b2) = false ->
      exists fit, fst (sample_call 2)
                  = Ok (assemble [0; 1.5; 30] [0; 1.5; 30] [1; 100] [3; 1]%nat true fit)).
Proof.
  apply (few_survivors_fit ref_lib [0; 1.5; 30] [0; 1.5; 30] 1 (Some 100) 2 true []
           [1; 100] [3; 1]%nat).
  - vm_compute. reflexivity.
  - vm_compute. reflexivity.
  - vm_compute. reflexivity.
  - vm_compute. reflexivity.
  - vm_compute. lia.
Defined.

(** Two equal numbers are the larger and the smaller of the two. *)
Lemma maximum_minimum_equal (a b : float) :
  (a =? b) = true -> (np.maximum a b =? np.minimum a b) = true.
Proof.
  intros E. unfold np.maximum, np.minimum.
  assert (L : (a <=? b) = true /\ (b <=? a) = true /\ (a =? a) = true).
  { rewrite !leb_spec, eqb_spec in *. unfold SFleb, SFeqb in *.
    rewrite (SFcompare_antisym (Prim2SF a) (Prim2SF b)).
    destruct (SFcompare (Prim2SF a) (Prim2SF b)) as [[]|] eqn:C; try discriminate.
    cbn [option_map CompOpp]. repeat split.
    rewrite SFcompare_refl; [reflexivity|].
    intros N. rewrite N in C. discriminate. }
  destruct L as (-> & -> & L). exact L.
Qed.

(** The regression on two observations with equal abscissas. *)
Lemma calculate_fractal_dimension_equal (lib : MathLib) (b1 b2 : float) (c1 c2 : nat) :
  (log10 lib b1 =? log10 lib b2) = true ->
  is_nan (log10 lib (of_int (Z.of_nat c1))) = false ->
  is_nan (log10 lib (of_int (Z.of_nat c2))) = false ->
  calculate_fractal_dimension lib [b1; b2] [c1; c2] = Raise (ValueError RegressionIdenticalX).
Proof.
  intros E N1 N2. unfold calculate_fractal_dimension, stats.linregress.
  cbn [map length Nat.eqb negb existsb fold_left]. rewrite N1, N2.
  assert (M1 : is_nan (log10 lib b1) = false).
  { rewrite is_nan_SF. rewrite eqb_spec in E. unfold SFeqb in E.
    destruct (Prim2SF (log10 lib b1)); try reflexivity. discriminate. }
  assert (M2 : is_nan (log10 lib b2) = false).
  { rewrite is_nan_SF. rewrite eqb_spec in E. unfold SFeqb in E.
    destruct (Prim2SF (log10 lib b1)), (Prim2SF (log10 lib b2)); try reflexivity;
      discriminate. }
  rewrite M1, M2. cbn [orb]. now rewrite maximum_minimum_equal.
Qed.

(** C6.  When exactly two scales pass the filter and their logarithms are
    equal numbers, the warning is emitted and the regression then refuses
    its two identical abscissas: the call raises after its warning.  Two
    scales between 100 and the next number above 100 are such a pair: the
    two logarithms are both 2, the two box sizes are both 100, and each
    gets the count 1. *)
Theorem equal_scales_are_fatal (lib : MathLib)
    (latitudes longitudes : list float) (min_box_size : float) (max_box_size : option float)
    (num_scales : Z) (return_details : bool) (w : list warning)
    (sizes : list float) (cnts : list nat) (b1 b2 : float) (c1 c2 : nat) :
  validate_data latitudes longitudes = Ok tt ->
  (effective_max_box_size latitudes longitudes max_box_size <=? min_box_size) = false ->
  scale_series lib min_box_size
               (effective_max_box_size latitudes longitudes max_box_size) num_scales
  = Ok sizes ->
  omap (get_box_counts latitudes longitudes) sizes = Ok cnts ->
  select (valid_mask cnts) sizes = [b1; b2] ->
  select (valid_mask cnts) cnts = [c1; c2] ->
  (log10 lib b1 =? log10 lib b2) = true ->
  is_nan (log10 lib (of_int (Z.of_nat c1))) = false ->
  is_nan (log10 lib (of_int (Z.of_nat c2))) = false ->
  box_counting lib latitudes longitudes min_box_size max_box_size
               num_scales return_details w
  = (Raise (ValueError RegressionIdenticalX), w ++ [TooFewValidBoxSizes]).
Proof.
  intros V C S1 S2 K1 K2 E N1 N2.
  rewrite box_counting_checked by assumption. rewrite C, S1, S2, K1, K2.
  rewrite calculate_fractal_dimension_equal by assumption.
  unfold after_filter.
  rewrite <- (select_length (valid_mask cnts) cnts) by apply valid_mask_length.
  rewrite K2. reflexivity.
Qed.

Lemma equal_scales_are_fatal_witness :
  box_counting ref_lib [0; 60] [0; 60] 100 (Some 100.00000000000001) 2 true []
  = (Raise (ValueError RegressionIdenticalX), [] ++ [TooFewValidBoxSizes]).
Proof.
  apply (equal_scales_are_fatal ref_lib [0; 60] [0; 60] 100 (Some 100.00000000000001) 2 true []
           [100; 100] [1; 1]%nat 100 100 1%nat 1%nat); vm_compute; reflexivity.
Defined.

(** ** Counting on concrete grids *)

(** C1, counterexample.  The four corners of a unit square,
    counted with a box of side 1, fall in one cell and not in four.  The
    edges are [0; 1] on both axes, so the grid has a single cell, closed
    on its far side. *)
Lemma corners_unit_box_count :
  get_box_counts [0; 0; 1; 1] [0; 1; 0; 1] 1 = Ok 1%nat
  /\ get_box_counts [0; 0; 1; 1] [0; 1; 0; 1] 1 <> Ok 4%nat.
Proof. split; [vm_compute; reflexivity | vm_compute; discriminate]. Qed.

(** C1, amended.  The corners are counted once at box sizes 1
    and 2, and the regression fed the counts 4 and 1 at box sizes 1 and
    2, the counts of a set that fills the plane, gives the dimension 2
    with a perfect fit. *)
Theorem corners_exact_grid :
  get_box_counts [0; 0; 1; 1] [0; 1; 0; 1] 1 = Ok 1%nat
  /\ get_box_counts [0; 0; 1; 1] [0; 1; 0; 1] 2 = Ok 1%nat
  /\ calculate_fractal_dimension ref_lib [1; 2] [4%nat; 1%nat]
     = Ok {| fit_D := 2; fit_r_squared := 1; fit_std_err := 0;
             fit_intercept := 0.6020599913279624 |}.
Proof. repeat split; vm_compute; reflexivity. Qed.

(** C8, counterexample.  For the three points (0, 0),
    (2.25, 2.25) and (3, 3) the box of side 1 gives two occupied cells and
    the larger box of side 1.25 gives three. *)
Lemma coarser_grid_more_cells :
  get_box_counts [0; 2.25; 3] [0; 2.25; 3] 1 = Ok 2%nat
  /\ get_box_counts [0; 2.25; 3] [0; 2.25; 3] 1.25 = Ok 3%nat
  /\ (1 <? 1.25) = true.
Proof. repeat split; vm_compute; reflexivity. Qed.

(** The count can also be zero for points in range: two points closer
    than the box side on one axis leave a grid of one edge and no cell. *)
Example close_points_no_cell :
  get_box_counts [0; 1e-20] [0; 1e-20] 0.1 = Ok 0%nat
  /\ get_box_counts [80; 81] [81; 80] 0.1 = Ok 0%nat.
Proof. split; vm_compute; reflexivity. Qed.

(** C8, amended.  A count that is returned is at most the
    number of points. *)
Theorem box_count_bounds (lats lons : list float) (box_size : float) (c : nat) :
  get_box_counts lats lons box_size = Ok c -> (c <= length lats)%nat.
Proof.
  unfold get_box_counts.
  destruct (np.amin lats); [|discriminate]. cbn [obind].
  destruct (np.amax lats); [|discriminate]. cbn [obind].
  destruct (np.amin lons); [|discriminate]. cbn [obind].
  destruct (np.amax lons); [|discriminate]. cbn [obind].
  destruct (np.arange _ _ box_size) as [lat_bins|]; [|discriminate]. cbn [obind].
  destruct (np.arange _ _ box_size) as [lon_bins|]; [|discriminate]. cbn [obind].
  destruct (np.histogram2d lats lons lat_bins lon_bins) as [hist|] eqn:H; [|discriminate].
  cbn [obind]. intros [= <-]. apply histogram2d_ok in H. subst hist.
  (* every occupied cell holds one of the points *)
  etransitivity; [apply count_positive_le|].
  rewrite length_map, length_combine. lia.
Qed.

Lemma box_count_bounds_witness :
  get_box_counts [0; 2.25; 3] [0; 2.25; 3] 1 = Ok 2%nat
  /\ (2 <= length [0; 2.25; 3]%float)%nat.
Proof.
  assert (H : get_box_counts [0; 2.25; 3] [0; 2.25; 3] 1 = Ok 2%nat)
    by (vm_compute; reflexivity).
  split; [exact H | exact (box_count_bounds _ _ _ _ H)].
Defined.

(** ** What a returning call guarantees *)

Lemma omap_forall {A B} (f : A -> outcome B) (P : B -> Prop) (xs : list A) (ys : list B) :
  (forall x y, f x = Ok y -> P y) -> omap f xs = Ok ys -> Forall P ys.
Proof.
  intros Hf. revert ys. induction xs as [|x r IH]; simpl; intros ys.
  - intros [= <-]. constructor.
  - destruct (f x) as [y|e] eqn:E; simpl; [|discriminate].
    destruct (omap f r) as [yr|e]; simpl; [|discriminate].
    intros [= <-]. constructor; [now apply (Hf x)|now apply IH].
Qed.

Lemma select_forall {A} (P : A -> Prop) (mask : list bool) (xs : list A) :
  Forall P xs -> Forall P (select mask xs).
Proof.
  intros H. unfold select. revert mask.
  induction H as [|x r Hx _ IH]; intros [|b m]; simpl; try constructor.
  destruct b; simpl; [constructor; [assumption|]|]; apply IH.
Qed.

(** The counts that pass the filter are positive. *)
Lemma select_valid_positive (cnts : list nat) :
  Forall (fun c => (1 <= c)%nat) (select (valid_mask cnts) cnts).
Proof.
  unfold select, valid_mask.
  induction cnts as [|c r IH]; simpl; [constructor|].
  destruct (Nat.ltb_spec 0 c); simpl; [constructor; [lia|]|]; exact IH.
Qed.

Lemma select_length_le {A} (mask : list bool) (xs : list A) :
  (length (select mask xs) <= length xs)%nat.
Proof.
  unfold select. rewrite length_map.
  etransitivity; [apply filter_length_le|]. rewrite length_combine. lia.
Qed.

Section Success.

Variable lib : MathLib.
Variables latitudes longitudes : list float.
Variable min_box_size : float.
Variable max_box_size : option float.
Variable num_scales : Z.
Variable return_details : bool.

Let top := effective_max_box_size latitudes longitudes max_box_size.
Let run := box_counting lib latitudes longitudes min_box_size max_box_size
                        num_scales return_details.

(** What a call that returns has gone through. *)
Lemma box_counting_ok_inv (w w' : list warning) (res : Results) :
  run w = (Ok res, w') ->
  validate_data latitudes longitudes = Ok tt
  /\ (top <=? min_box_size) = false
  /\ exists sizes cnts fit,
       scale_series lib min_box_size top num_scales = Ok sizes
       /\ omap (get_box_counts latitudes longitudes) sizes = Ok cnts
       /\ calculate_fractal_dimension lib (select (valid_mask cnts) sizes)
                                          (select (valid_mask cnts) cnts) = Ok fit
       /\ res = assemble latitudes longitudes sizes cnts return_details fit
       /\ w' = after_filter cnts w.
Proof.
  intros H.
  destruct (validate_data_outcome latitudes longitudes) as [V|[e V]].
  2:{ unfold run in H. rewrite (box_counting_invalid _ _ _ _ _ _ _ e) in H by assumption.
      discriminate. }
  split; [assumption|].
  unfold run in H. rewrite box_counting_checked in H by assumption.
  fold top in H.
  destruct (top <=? min_box_size) eqn:C; [discriminate|].
  split; [reflexivity|].
  destruct (scale_series _ _ _ _) as [sizes|] eqn:S1; [|discriminate].
  destruct (omap _ sizes) as [cnts|] eqn:S2; [|discriminate].
  destruct (calculate_fractal_dimension _ _ _) as [fit|] eqn:F; [|discriminate].
  injection H as <- <-. exists sizes, cnts, fit. repeat split; (assumption || reflexivity).
Qed.

End Success.

Lemma scale_series_nonneg (lib : MathLib) (a b : float) (n : Z) (sizes : list float) :
  scale_series lib a b n = Ok sizes -> (0 <= n)%Z.
Proof.
  unfold scale_series, np.logspace, np.linspace.
  destruct (Z.ltb_spec n 0); [discriminate|]. intros _. assumption.
Qed.

Section Returned.

Variable lib : MathLib.
Variables latitudes longitudes : list float.
Variable min_box_size : float.
Variable max_box_size : option float.
Variable num_scales : Z.
Variable return_details : bool.

Let run := box_counting lib latitudes longitudes min_box_size max_box_size
                        num_scales return_details.


(** X5.  A call that returns carries the per-scale detail exactly when it
    was asked for; the detail has as many box sizes as counts, at most
    num_scales of them, and every count is at least 1 and at most the
    number of points. *)
Theorem result_details (w w' : list warning) (res : Results) :
  run w = (Ok res, w') ->
  (return_details = false -> details res = None)
  /\ (return_details = true ->
      exists dt, details res = Some dt
                 /\ length (box_sizes dt) = length (counts dt)
                 /\ (length (counts dt) <= Z.to_nat num_scales)%nat
                 /\ Forall (fun c => (1 <= c <= n_points res)%nat) (counts dt)).
Proof.
  intros H. apply box_counting_ok_inv in H.
  destruct H as (V & _ & sizes & cnts & fit & S1 & S2 & F & -> & _).
  cbn [assemble details n_points].
  split; [now intros ->|]. intros ->. eexists. split; [reflexivity|].
  cbn [box_sizes counts].
  pose proof (omap_length _ _ _ S2) as Hlen.
  pose proof (scale_series_length _ _ _ _ _ S1) as HN.
  assert (L1 : length (select (valid_mask cnts) sizes)
               = length (select (valid_mask cnts) cnts)).
  { rewrite !select_length; [reflexivity| |]; now rewrite valid_mask_length. }
  split; [exact L1|]. split.
  - pose proof (select_length_le (valid_mask cnts) cnts). lia.
  - assert (A : Forall (fun c => (c <= length latitudes)%nat) cnts).
    { apply (omap_forall _ _ _ _ (get_box_counts_le _ _) S2). }
    pose proof (select_forall _ (valid_mask cnts) _ A) as B.
    pose proof (select_valid_positive cnts) as C.
    rewrite Forall_forall in *. intros c Hc. split; [now apply C|now apply B].
Qed.

(** X6.  A call that returns with its detail has emitted the warning, once,
    exactly when fewer than three scales are in the detail; the warnings
    emitted before the call are kept. *)
Theorem warning_iff_few_scales (w w' : list warning) (res : Results) (dt : Details) :
  run w = (Ok res, w') -> details res = Some dt ->
  w' = if (length (counts dt) <? 3)%nat then w ++ [TooFewValidBoxSizes] else w.
Proof.
  intros H Hd. apply box_counting_ok_inv in H.
  destruct H as (V & _ & sizes & cnts & fit & S1 & S2 & F & -> & ->).
  cbn [assemble details] in Hd. destruct return_details; [|discriminate].
  injection Hd as <-. cbn [counts]. unfold after_filter.
  rewrite select_length by now rewrite valid_mask_length. reflexivity.
Qed.

(** X7.  A call returns only for well-formed coordinates, a largest box
    size (given, or derived from the ranges) for which the test
    [max_box_size <= min_box_size] is false, and a num_scales that is not
    negative. *)
Theorem success_requirements (w w' : list warning) (res : Results) :
  run w = (Ok res, w') ->
  ~ malformed latitudes longitudes
  /\ (effective_max_box_size latitudes longitudes max_box_size <=? min_box_size) = false
  /\ (0 <= num_scales)%Z.
Proof.
  intros H. apply box_counting_ok_inv in H.
  destruct H as (V & Hlt & sizes & cnts & fit & S1 & S2 & F & _ & _).
  split; [now apply validate_data_accepts|]. split; [assumption|].
  now apply scale_series_nonneg in S1.
Qed.

(** X8.  In a call that returns with its detail and at most one scale in
    it, D, the standard error and the intercept are NaN: the regression
    has fewer than two observations. *)
Theorem dimension_nan_below_two_scales (w w' : list warning) (res : Results) (dt : Details) :
  run w = (Ok res, w') -> details res = Some dt ->
  (length (counts dt) <= 1)%nat ->
  is_nan (D res) = true /\ is_nan (std_error res) = true /\ is_nan (intercept dt) = true.
Proof.
  intros H Hd Hc. apply box_counting_ok_inv in H.
  destruct H as (V & _ & sizes & cnts & fit & S1 & S2 & F & -> & _).
  cbn [assemble details D std_error] in *. destruct return_details; [|discriminate].
  injection Hd as <-. cbn [counts intercept] in *.
  pose proof (omap_length _ _ _ S2) as Hlen.
  assert (L1 : length (select (valid_mask cnts) sizes)
               = length (select (valid_mask cnts) cnts)).
  { rewrite !select_length; [reflexivity| |]; now rewrite valid_mask_length. }
  rewrite calculate_fractal_dimension_small in F by (rewrite ?L1; auto).
  injection F as <-. repeat split; reflexivity.
Qed.

End Returned.


Lemma result_details_witness :
  (true = false -> details (sample_result 3) = None)
  /\ (true = true ->
      exists dt, details (sample_result 3) = Some dt
                 /\ length (box_sizes dt) = length (counts dt)
                 /\ (length (counts dt) <= Z.to_nat 3)%nat
                 /\ Forall (fun c => (1 <= c <= n_points (sample_result 3))%nat) (counts dt)).
Proof.
  apply (result_details ref_lib [0; 1.5; 30] [0; 1.5; 30] 1 (Some 100) 3 true [] []).
  vm_compute. reflexivity.
Defined.

Lemma warning_iff_few_scales_witness :
  [TooFewValidBoxSizes]
  = if (length (counts (sample_details 1)) <? 3)%nat then [] ++ [TooFewValidBoxSizes] else [].
Proof.
  apply (warning_iff_few_scales ref_lib [0; 1.5; 30] [0; 1.5; 30] 1 (Some 100) 1 true
           [] [TooFewValidBoxSizes] (sample_result 1) (sample_details 1)).
  - vm_compute. reflexivity.
  - vm_compute. reflexivity.
Defined.

Lemma success_requirements_witness :
  ~ malformed [0; 1.5; 30] [0; 1.5; 30]
  /\ (effective_max_box_size [0; 1.5; 30] [0; 1.5; 30] (Some 100) <=? 1) = false
  /\ (0 <= 3)%Z.
Proof.
  apply (success_requirements ref_lib [0; 1.5; 30] [0; 1.5; 30] 1 (Some 100) 3 true
           [] [] (sample_result 3)).
  vm_compute. reflexivity.
Defined.

Lemma dimension_nan_below_two_scales_witness :
  is_nan (D (sample_result 1)) = true /\ is_nan (std_error (sample_result 1)) = true
  /\ is_nan (intercept (sample_details 1)) = true.
Proof.
  apply (dimension_nan_below_two_scales ref_lib [0; 1.5; 30] [0; 1.5; 30] 1 (Some 100) 1 true
           [] [TooFewValidBoxSizes] (sample_result 1) (sample_details 1)).
  - vm_compute. reflexivity.
  - vm_compute. reflexivity.
  - vm_compute. lia.
Defined.

(** ** [analyze_csv] *)

(** A validation exception of [box_counting] is the one [validate_data]
    raised. *)
Lemma box_counting_validation_raise (lib : MathLib)
    (latitudes longitudes : list float) (min_box_size : float) (max_box_size : option float)
    (num_scales : Z) (return_details : bool) (w : list warning) (e : exn) :
  fst (box_counting lib latitudes longitudes min_box_size max_box_size
                    num_scales return_details w) = Raise e ->
  is_validation_error e = true ->
  validate_data latitudes longitudes = Raise e.
Proof.
  intros H V.
  destruct (validate_data_outcome latitudes longitudes) as [Hv|[e' Hv]].
  - exfalso. pose proof H as H'. rewrite box_counting_checked in H by assumption.
    destruct (_ <=? min_box_size) eqn:C.
    + cbn in H. injection H as <-. discriminate.
    + pose proof (box_counting_late_raise lib latitudes longitudes min_box_size
                    max_box_size num_scales return_details w e Hv C H') as L.
      unfold is_library_error in L. rewrite V in L. discriminate.
  - rewrite (box_counting_invalid _ _ _ _ _ _ _ e') in H by assumption.
    cbn in H. now injection H as <-.
Qed.

Lemma validate_data_equal_lengths (latitudes longitudes : list float) :
  length latitudes = length longitudes ->
  validate_data latitudes longitudes <> Raise (ValueError ArraysLengthMismatch).
Proof.
  intros H. unfold validate_data. rewrite H, Nat.eqb_refl. cbn [negb].
  repeat match goal with |- context [if ?c then _ else _] => destruct c end; discriminate.
Qed.

Lemma validate_data_not_finite (latitudes longitudes : list float) :
  validate_data latitudes longitudes = Raise (ValueError CoordinatesNotFinite) ->
  exists x, In x (latitudes ++ longitudes) /\ is_finite x = false.
Proof.
  unfold validate_data.
  destruct (_ || _); [discriminate|]. destruct (negb (_ =? _)%nat); [discriminate|].
  destruct (forallb is_finite latitudes) eqn:F1; cbn [negb orb].
  2:{ intros _. destruct (not_all_finite _ F1) as (x & Hin & Hx).
      exists x. split; [apply in_or_app; now left|assumption]. }
  destruct (forallb is_finite longitudes) eqn:F2; cbn [negb].
  2:{ intros _. destruct (not_all_finite _ F2) as (x & Hin & Hx).
      exists x. split; [apply in_or_app; now right|assumption]. }
  repeat match goal with |- context [if ?c then _ else _] => destruct c end; discriminate.
Qed.

Lemma firstn_min_lengths {A B} (l1 : list A) (l2 : list B) :
  length (firstn (Nat.min (length l1) (length l2)) l1)
  = length (firstn (Nat.min (length l1) (length l2)) l2).
Proof. rewrite !length_firstn. lia. Qed.

Lemma in_firstn {A} (x : A) (n : nat) (l : list A) : In x (firstn n l) -> In x l.
Proof.
  revert l. induction n as [|n IH]; intros [|a l]; simpl; try contradiction.
  intros [->|H]; [now left|right; now apply IH].
Qed.

(** There is one NaN. *)
Lemma is_nan_eq (x : float) : is_nan x = true <-> x = nan.
Proof.
  split; [|now intros ->].
  rewrite is_nan_SF. intros H. apply Prim2SF_inj.
  destruct (Prim2SF x); try discriminate. reflexivity.
Qed.

Lemma not_nan (x : float) : is_nan x = false <-> x <> nan.
Proof.
  split.
  - intros H ->. discriminate.
  - intros H. destruct (is_nan x) eqn:E; [|reflexivity].
    apply is_nan_eq in E. contradiction.
Qed.

(** What is neither finite nor NaN is an infinity. *)
Lemma not_finite_cases (x : float) :
  is_finite x = false -> x <> nan -> x = infinity \/ x = neg_infinity.
Proof.
  intros F N. apply not_nan in N. rewrite is_finite_SF in F. rewrite is_nan_SF in N.
  destruct (Prim2SF x) as [s|[]| |s m e] eqn:E; try discriminate.
  - right. apply Prim2SF_inj. now rewrite E.
  - left. apply Prim2SF_inj. now rewrite E.
Qed.

Lemma in_dropna (x : float) (xs : list float) : In x (dropna xs) -> In x xs /\ x <> nan.
Proof.
  unfold dropna. intros H. apply filter_In in H. destruct H as [H1 H2].
  split; [assumption|]. intros ->. discriminate.
Qed.

(** X9.  [analyze_csv] never fails with the length-mismatch error, and it
    fails with the not-finite error only when a coordinate column holds an
    infinity: missing values are dropped and the columns cut to one
    length. *)
Theorem analyze_csv_missing_values (lib : MathLib) (data : DataFrame)
    (lat_col lon_col : string) (min_box_size : float) (max_box_size : option float)
    (num_scales : Z) (return_details : bool) (w : list warning) :
  let r := fst (analyze_csv lib data lat_col lon_col min_box_size max_box_size
                            num_scales return_details w) in
  r <> Raises (EngineError (ValueError ArraysLengthMismatch))
  /\ (r = Raises (EngineError (ValueError CoordinatesNotFinite)) ->
      exists lat lon x,
        column data lat_col = Some lat /\ column data lon_col = Some lon
        /\ In x (lat ++ lon) /\ (x = infinity \/ x = neg_infinity)).
Proof.
  intros r. unfold r, analyze_csv.
  destruct (column data lat_col) as [lat|]; [|split; cbn; discriminate].
  destruct (column data lon_col) as [lon|]; [|split; cbn; discriminate].
  set (n := Nat.min (length (dropna lat)) (length (dropna lon))).
  destruct (box_counting lib (firstn n (dropna lat)) (firstn n (dropna lon)) min_box_size
              max_box_size num_scales return_details w) as [[res|e] w'] eqn:B;
    [split; cbn; discriminate|].
  assert (B' : fst (box_counting lib (firstn n (dropna lat)) (firstn n (dropna lon))
                      min_box_size max_box_size num_scales return_details w) = Raise e)
    by now rewrite B.
  cbn [wrap fst]. split.
  - intros [= ->].
    apply box_counting_validation_raise in B'; [|reflexivity].
    revert B'. apply validate_data_equal_lengths. apply firstn_min_lengths.
  - intros [= ->].
    apply box_counting_validation_raise in B'; [|reflexivity].
    apply validate_data_not_finite in B'. destruct B' as (x & Hin & Hx).
    exists lat, lon, x. split; [reflexivity|]. split; [reflexivity|].
    assert (Hx' : In x (lat ++ lon) /\ x <> nan).
    { apply in_app_or in Hin. destruct Hin as [Hin|Hin];
        apply in_firstn, in_dropna in Hin; destruct Hin as [Hin Hn];
        (split; [apply in_or_app; auto|assumption]). }
    destruct Hx' as [Hin' Hn]. split; [assumption|].
    now apply not_finite_cases.
Qed.

Lemma dropna_complete (lat lon : list float) :
  length lat = length lon ->
  (forall p, In p (combine lat lon) -> is_nan (fst p) = is_nan (snd p)) ->
  dropna lat = map fst (complete_rows lat lon)
  /\ dropna lon = map snd (complete_rows lat lon).
Proof.
  revert lon. induction lat as [|a lat IH]; intros [|b lon]; try discriminate.
  - intros _ _. split; reflexivity.
  - intros [= Hlen] H.
    destruct (IH lon Hlen) as [E1 E2]; [intros p Hp; apply H; now right|].
    specialize (H (a, b) (or_introl eq_refl)). cbn [fst snd] in H.
    unfold dropna, complete_rows in *. cbn [filter combine fst snd].
    rewrite <- H. destruct (is_nan a); cbn [negb andb map fst snd]; rewrite E1, E2; auto.
Qed.

(** X10.  When every row of the file holds both coordinates or none,
    [analyze_csv] analyses exactly the rows that hold both, in order. *)
Theorem analyze_csv_complete_rows (lib : MathLib) (data : DataFrame)
    (lat_col lon_col : string) (lat lon : list float)
    (min_box_size : float) (max_box_size : option float)
    (num_scales : Z) (return_details : bool) (w : list warning) :
  column data lat_col = Some lat -> column data lon_col = Some lon ->
  length lat = length lon ->
  (forall p, In p (combine lat lon) -> is_nan (fst p) = is_nan (snd p)) ->
  analyze_csv lib data lat_col lon_col min_box_size max_box_size num_scales return_details w
  = wrap (box_counting lib (map fst (complete_rows lat lon)) (map snd (complete_rows lat lon))
                       min_box_size max_box_size num_scales return_details w).
Proof.
  intros C1 C2 Hlen H. unfold analyze_csv. rewrite C1, C2.
  destruct (dropna_complete lat lon Hlen H) as [-> ->].
  rewrite !length_map, Nat.min_id.
  now rewrite !firstn_all2 by (rewrite length_map; lia).
Qed.

Lemma analyze_csv_complete_rows_witness :
  analyze_csv ref_lib sample_frame "latitude" "longitude" 1 (Some 100) 3 true []
  = wrap (box_counting ref_lib
            (map fst (complete_rows [0; nan; 30] [0; nan; 30]))
            (map snd (complete_rows [0; nan; 30] [0; nan; 30]))
            1 (Some 100) 3 true []).
Proof.
  apply (analyze_csv_complete_rows ref_lib sample_frame "latitude" "longitude").
  - reflexivity.
  - reflexivity.
  - reflexivity.
  - intros p [<-|[<-|[<-|[]]]]; reflexivity.
Defined.

Lemma dropna_id (xs : list float) : (forall x, In x xs -> x <> nan) -> dropna xs = xs.
Proof.
  intros H. unfold dropna. induction xs as [|x r IH]; simpl; [reflexivity|].
  assert (N : is_nan x = false) by (apply not_nan, H; now left).
  rewrite N. cbn [negb]. f_equal. apply IH. intros; apply H; now right.
Qed.

(** X11.  Missing values are dropped column by column: when only the first
    row lacks its longitude, every latitude is paired with the longitude
    of the next row, and the last latitude is dropped. *)
Theorem analyze_csv_shifted_pairs (lib : MathLib) (data : DataFrame)
    (lat_col lon_col : string) (lat lon : list float)
    (min_box_size : float) (max_box_size : option float)
    (num_scales : Z) (return_details : bool) (w : list warning) :
  column data lat_col = Some lat -> column data lon_col = Some (nan :: lon) ->
  length lat = S (length lon) ->
  (forall x, In x (lat ++ lon) -> x <> nan) ->
  analyze_csv lib data lat_col lon_col min_box_size max_box_size num_scales return_details w
  = wrap (box_counting lib (removelast lat) lon
                       min_box_size max_box_size num_scales return_details w).
Proof.
  intros C1 C2 Hlen H. unfold analyze_csv. rewrite C1, C2.
  assert (E1 : dropna lat = lat) by (apply dropna_id; intros; apply H, in_or_app; auto).
  assert (E2 : dropna (nan :: lon) = lon).
  { unfold dropna. cbn [filter]. change (is_nan nan) with true. cbn [negb].
    apply dropna_id. intros; apply H, in_or_app; auto. }
  rewrite E1, E2, Hlen. replace (Nat.min (S (length lon)) (length lon)) with (length lon) by lia.
  rewrite firstn_all.
  rewrite removelast_firstn_len, Hlen. reflexivity.
Qed.

Lemma analyze_csv_shifted_pairs_witness :
  analyze_csv ref_lib sample_frame_gap "latitude" "longitude" 1 (Some 100) 3 true []
  = wrap (box_counting ref_lib (removelast [0; 1.5; 30]) [1.5; 30] 1 (Some 100) 3 true []).
Proof.
  apply (analyze_csv_shifted_pairs ref_lib sample_frame_gap "latitude" "longitude").
  - reflexivity.
  - reflexivity.
  - reflexivity.
  - intros x [<-|[<-|[<-|[<-|[<-|[]]]]]]; apply not_nan; reflexivity.
Defined.

(** ** The yearly dimensions *)

Lemma insert_year_in (y z : Z) (l : list Z) :
  In z (insert_year y l) <-> z = y \/ In z l.
Proof.
  induction l as [|x r IH]; simpl.
  - intuition.
  - destruct (Z.ltb_spec y x); [simpl; intuition|].
    destruct (Z.eqb_spec y x) as [->|Hne]; simpl; [intuition|].
    rewrite IH. intuition.
Qed.

Lemma insert_year_sorted (y : Z) (l : list Z) :
  StronglySorted Z.lt l -> StronglySorted Z.lt (insert_year y l).
Proof.
  induction 1 as [|x r Hs IH Hx]; simpl.
  - repeat constructor.
  - destruct (Z.ltb_spec y x).
    + constructor; [now constructor|]. constructor; [assumption|].
      rewrite Forall_forall in *. intros z Hz. specialize (Hx z Hz). lia.
    + destruct (Z.eqb_spec y x) as [->|Hne]; [now constructor|].
      constructor; [assumption|].
      rewrite Forall_forall in *. intros z Hz. apply insert_year_in in Hz.
      destruct Hz as [->|Hz]; [lia|now apply Hx].
Qed.

(** [sorted_years] is the increasing list of the years that occur. *)
Lemma sorted_years_spec (events : list Event) :
  StronglySorted Z.lt (sorted_years events)
  /\ forall y, In y (sorted_years events) <-> In y (map ev_year events).
Proof.
  unfold sorted_years. induction (map ev_year events) as [|a l [IH1 IH2]]; simpl.
  - split; [constructor|reflexivity].
  - split; [now apply insert_year_sorted|].
    intros y. rewrite insert_year_in, IH2. intuition.
Qed.

Lemma sorted_filter (P : Z -> bool) (l : list Z) :
  StronglySorted Z.lt l -> StronglySorted Z.lt (filter P l).
Proof.
  induction 1 as [|x r Hs IH Hx]; simpl; [constructor|].
  destruct (P x); [|assumption]. constructor; [assumption|].
  rewrite Forall_forall in *. intros z Hz. apply filter_In in Hz. now apply Hx.
Qed.

Lemma yearly_loop_years (lib : MathLib) (events : list Event) (years : list Z) :
  map yr_year (fst (yearly_loop lib events years)) = filter (year_kept lib events) years
  /\ map fst (snd (yearly_loop lib events years)) = filter (year_failed lib events) years.
Proof.
  induction years as [|y r [IH1 IH2]]; simpl; [split; reflexivity|].
  destruct (yearly_loop lib events r) as [rows printed]. cbn [fst snd] in *.
  unfold year_kept, year_failed.
  destruct (Nat.ltb_spec (length (year_data events y)) 10).
  - destruct (Nat.leb_spec 10 (length (year_data events y))); [lia|]. cbn [andb fst snd]. auto.
  - destruct (Nat.leb_spec 10 (length (year_data events y))); [|lia]. cbn [andb].
    destruct (fst (yearly_call lib (year_data events y) [])); cbn [fst snd map];
      rewrite ?IH1, ?IH2; auto.
Qed.

Lemma yearly_call_n_points (lib : MathLib) (data : list Event) (w w' : list warning)
    (r : Results) :
  yearly_call lib data w = (Ok r, w') -> n_points r = length data.
Proof.
  intros H. apply box_counting_ok_inv in H.
  destruct H as (_ & _ & sizes & cnts & fit & _ & _ & _ & -> & _).
  cbn [assemble n_points]. now rewrite length_map.
Qed.

Lemma yearly_loop_rows (lib : MathLib) (events : list Event) (years : list Z) (row : YearRow) :
  In row (fst (yearly_loop lib events years)) ->
  In (yr_year row) years
  /\ (10 <= yr_n_events row)%nat
  /\ yr_n_events row = length (year_data events (yr_year row)).
Proof.
  induction years as [|y r IH]; simpl; [contradiction|].
  destruct (yearly_loop lib events r) as [rows printed]. cbn [fst snd] in *.
  destruct (Nat.ltb_spec (length (year_data events y)) 10).
  - cbn [fst]. intros H0. destruct (IH H0) as (A & B & C). auto.
  - destruct (yearly_call lib (year_data events y) []) as [[res|e] w'] eqn:E; cbn [fst].
    + intros [<-|H0].
      * cbn [year_row yr_year yr_n_events].
        rewrite (yearly_call_n_points _ _ _ _ _ E). auto.
      * destruct (IH H0) as (A & B & C). auto.
    + intros H0. destruct (IH H0) as (A & B & C). auto.
Qed.

(** X12.  The rows of [calculate_yearly_fractal_dimensions] come in strictly
    increasing years, and each row reports the number of events of its
    year, which is at least 10. *)
Theorem yearly_rows_sorted (lib : MathLib) (events : list Event) :
  let rows := fst (calculate_yearly_fractal_dimensions lib events) in
  StronglySorted Z.lt (map yr_year rows)
  /\ forall row, In row rows ->
       (10 <= yr_n_events row)%nat
       /\ yr_n_events row = length (year_data events (yr_year row)).
Proof.
  intros rows. unfold rows, calculate_yearly_fractal_dimensions. split.
  - rewrite (proj1 (yearly_loop_years lib events _)).
    apply sorted_filter, sorted_years_spec.
  - intros row H. now apply yearly_loop_rows in H.
Qed.

Lemma year_data_year (events : list Event) (y : Z) :
  (1 <= length (year_data events y))%nat -> In y (map ev_year events).
Proof.
  unfold year_data. intros H.
  destruct (filter _ events) as [|e r] eqn:E; [simpl in H; lia|].
  assert (Hin : In e (filter (fun e => (ev_year e =? y)%Z) events)) by (rewrite E; now left).
  apply filter_In in Hin. destruct Hin as [Hin Hy]. apply Z.eqb_eq in Hy. subst y.
  now apply in_map.
Qed.

(** X13.  A year has a row or a printed exception exactly when it has at
    least 10 events, and never both. *)
Theorem yearly_every_year_accounted (lib : MathLib) (events : list Event) (y : Z) :
  let out := calculate_yearly_fractal_dimensions lib events in
  ((In y (map yr_year (fst out)) \/ In y (map fst (snd out)))
   <-> (10 <= length (year_data events y))%nat)
  /\ ~ (In y (map yr_year (fst out)) /\ In y (map fst (snd out))).
Proof.
  intros out. unfold out, calculate_yearly_fractal_dimensions.
  destruct (yearly_loop_years lib events (sorted_years events)) as [-> ->].
  rewrite !filter_In. unfold year_kept, year_failed.
  destruct (sorted_years_spec events) as [_ S]. rewrite S.
  destruct (Nat.leb_spec 10 (length (year_data events y))) as [L|L]; cbn [andb].
  - pose proof (year_data_year events y ltac:(lia)) as Hy.
    destruct (fst (yearly_call lib (year_data events y) [])); split;
      try (split; [intros; lia|intros _; auto]); intros [[_ A] [_ B]]; discriminate.
  - split; [split; [intros [[_ A]|[_ A]]; discriminate|intros; lia]|].
    intros [[_ A] _]; discriminate.
Qed.

Lemma yearly_call_flat (lib : MathLib) (data : list Event) (w : list warning) :
  validate_data (map ev_latitude data) (map ev_longitude data) = Ok tt ->
  (forall a b, In a data -> In b data -> (ev_latitude a =? ev_latitude b) = true)
  \/ (forall a b, In a data -> In b data -> (ev_longitude a =? ev_longitude b) = true) ->
  yearly_call lib data w = (Raise (ValueError MinBoxNotLessThanMax), w).
Proof.
  intros V Hz. unfold yearly_call. rewrite box_counting_checked by assumption.
  destruct (validate_data_finite _ _ V) as [F1 F2].
  assert (T : is_zero (effective_max_box_size (map ev_latitude data)
                         (map ev_longitude data) None) = true).
  { apply flat_extent_top; try assumption. destruct Hz as [Hz|Hz]; [left|right];
      intros x y Hx Hy; apply in_map_iff in Hx, Hy;
      destruct Hx as (a & <- & Ha), Hy as (b & <- & Hb); now apply Hz. }
  now rewrite (zero_le_positive _ 0.1 T eq_refl).
Qed.

Lemma yearly_loop_printed (lib : MathLib) (events : list Event) (years : list Z)
    (y : Z) (e : exn) :
  In y years -> (10 <= length (year_data events y))%nat ->
  fst (yearly_call lib (year_data events y) []) = Raise e ->
  In (y, e) (snd (yearly_loop lib events years)).
Proof.
  intros Hin Hlen He. induction years as [|z r IH]; simpl; [contradiction|].
  destruct (yearly_loop lib events r) as [rows printed]. cbn [fst snd] in *.
  destruct Hin as [->|Hin].
  - destruct (Nat.ltb_spec (length (year_data events y)) 10); [lia|].
    rewrite He. cbn. now left.
  - specialize (IH Hin).
    destruct (length (year_data events z) <? 10)%nat; [exact IH|].
    destruct (fst (yearly_call lib (year_data events z) [])); cbn; auto.
Qed.

(** X14.  A year of at least 10 valid events that all share one latitude,
    or all share one longitude, gets no row: its call fails at the size
    check (the derived largest box size is 0) and the exception is
    printed. *)
Theorem yearly_flat_year_skipped (lib : MathLib) (events : list Event) (y : Z) :
  let data := year_data events y in
  let out := calculate_yearly_fractal_dimensions lib events in
  (10 <= length data)%nat ->
  validate_data (map ev_latitude data) (map ev_longitude data) = Ok tt ->
  (forall a b, In a data -> In b data -> (ev_latitude a =? ev_latitude b) = true)
  \/ (forall a b, In a data -> In b data -> (ev_longitude a =? ev_longitude b) = true) ->
  In (y, ValueError MinBoxNotLessThanMax) (snd out)
  /\ ~ In y (map yr_year (fst out)).
Proof.
  intros data out Hlen V Hz.
  pose proof (yearly_call_flat lib data [] V Hz) as C.
  unfold data in *. clear data.
  unfold out, calculate_yearly_fractal_dimensions. split.
  - apply yearly_loop_printed.
    + apply sorted_years_spec, year_data_year. lia.
    + assumption.
    + rewrite C. reflexivity.
  - rewrite (proj1 (yearly_loop_years lib events _)), filter_In.
    unfold year_kept. rewrite C. cbn [fst]. rewrite andb_false_r.
    intros [_ A]. discriminate.
Qed.

Lemma yearly_flat_year_skipped_witness :
  In (2020%Z, ValueError MinBoxNotLessThanMax)
     (snd (calculate_yearly_fractal_dimensions ref_lib sample_events))
  /\ ~ In 2020%Z (map yr_year (fst (calculate_yearly_fractal_dimensions ref_lib sample_events))).
Proof.
  apply (yearly_flat_year_skipped ref_lib sample_events 2020).
  - vm_compute. lia.
  - vm_compute. reflexivity.
  - left. intros a b Ha Hb.
    apply filter_In in Ha, Hb. destruct Ha as [Ha _], Hb as [Hb _].
    apply in_map_iff in Ha, Hb.
    destruct Ha as (i & <- & _), Hb as (j & <- & _). reflexivity.
Defined.

Lemma yearly_d_loop_rows (lib : MathLib) (events : list Event) (years : list Z)
    (w : list warning) :
  fst (yearly_d_loop lib events years w) = fst (yearly_loop lib events years).
Proof.
  revert w. induction years as [|y r IH]; intros w; [reflexivity|].
  cbn [yearly_d_loop yearly_loop].
  destruct (yearly_loop lib events r) as [rows printed] eqn:E. cbn [fst] in IH.
  destruct (Nat.leb_spec 10 (length (year_data events y)));
    destruct (Nat.ltb_spec (length (year_data events y)) 10); try lia.
  - unfold yearly_call.
    rewrite (box_counting_writer lib _ _ _ _ _ _ w).
    destruct (fst (box_counting lib _ _ _ _ _ _ [])); cbn [fst].
    + specialize (IH (w ++ snd (box_counting lib (map ev_latitude (year_data events y))
                                 (map ev_longitude (year_data events y)) 0.1 None 15
                                 false []))).
      destruct (yearly_d_loop lib events r _). cbn [fst] in *. now rewrite IH.
    + apply IH.
  - apply IH.
Qed.

(** X15.  [calculate_yearly_d] of app_v2.py computes the rows of
    [calculate_yearly_fractal_dimensions], whatever warnings were emitted
    before, and returns None when there is none. *)
Theorem yearly_d_agrees (lib : MathLib) (events : list Event) (w : list warning) :
  fst (calculate_yearly_d lib (Some events) w)
  = match fst (calculate_yearly_fractal_dimensions lib events) with
    | [] => None
    | rows => Some rows
    end.
Proof.
  unfold calculate_yearly_d, calculate_yearly_fractal_dimensions.
  pose proof (yearly_d_loop_rows lib events (sorted_years events) w) as H.
  destruct (yearly_d_loop lib events (sorted_years events) w) as [rows w'].
  cbn [fst] in *. subst rows.
  destruct (fst (yearly_loop lib events (sorted_years events))); reflexivity.
Qed.
(** ** The registry *)

Lemma find_last {A} (f : A -> bool) (l : list A) (d : A) :
  find f (l ++ [d])
  = match find f l with
    | Some x => Some x
    | None => if f d then Some d else None
    end.
Proof.
  induction l as [|a l IH]; simpl; [reflexivity|]. now destruct (f a).
Qed.

Lemma find_filter {A} (f g : A -> bool) (l : list A) :
  (forall x, f x = true -> g x = true) -> find f (filter g l) = find f l.
Proof.
  intros H. induction l as [|a l IH]; simpl; [reflexivity|].
  destruct (g a) eqn:G; simpl.
  - now rewrite IH.
  - destruct (f a) eqn:F; [|assumption]. apply H in F. congruence.
Qed.

Lemma find_filter_none {A} (f : A -> bool) (l : list A) :
  find f (filter (fun x => negb (f x)) l) = None.
Proof.
  induction l as [|a l IH]; simpl; [reflexivity|].
  destruct (f a) eqn:F; simpl; [assumption|]. now rewrite F.
Qed.

(** X16.  After [add_dataset] a lookup by the new name finds the dataset
    that already had this name, if there was one, and otherwise the new
    one; lookups by other names are unchanged. *)
Theorem add_dataset_lookup (e : Entry) (now : string) (file file' : registry_file)
    (ds : Dataset) :
  add_dataset e now file = (Returns ds, file') ->
  get_dataset_by_name (en_name e) file'
  = match get_dataset_by_name (en_name e) file with
    | Some old => Some old
    | None => Some ds
    end
  /\ forall name, name <> en_name e ->
       get_dataset_by_name name file' = get_dataset_by_name name file.
Proof.
  unfold add_dataset, get_dataset_by_name, get_all_datasets.
  destruct (datasets (load_registry file)) as [l|]; [|discriminate].
  intros [= <- <-]. cbn [save_registry load_registry datasets].
  split.
  - rewrite find_last. cbn [new_dataset ds_name]. now rewrite String.eqb_refl.
  - intros name Hne. rewrite find_last. cbn [new_dataset ds_name].
    destruct (String.eqb_spec (en_name e) name) as [E|E]; [now subst|].
    now destruct (find _ l).
Qed.

Lemma add_dataset_lookup_witness :
  get_dataset_by_name (en_name (sample_entry "b")) sample_file
  = match get_dataset_by_name (en_name (sample_entry "b"))
            (snd (add_dataset (sample_entry "a") "2026-02-02T00:00:00" NoFile)) with
    | Some old => Some old
    | None => Some (new_dataset 2 (sample_entry "b") "2026-02-02T00:00:01")
    end
  /\ forall name, name <> en_name (sample_entry "b") ->
       get_dataset_by_name name sample_file
       = get_dataset_by_name name
           (snd (add_dataset (sample_entry "a") "2026-02-02T00:00:00" NoFile)).
Proof.
  apply (add_dataset_lookup (sample_entry "b") "2026-02-02T00:00:01").
  reflexivity.
Defined.

(** X17.  After [delete_dataset] a lookup by that name finds nothing and
    lookups by other names are unchanged; deleting a name that is not
    registered leaves the datasets as they were. *)
Theorem delete_dataset_lookup (name : string) (file file' : registry_file) :
  delete_dataset name file = (Returns tt, file') ->
  get_dataset_by_name name file' = None
  /\ (forall other, other <> name ->
        get_dataset_by_name other file' = get_dataset_by_name other file)
  /\ (get_dataset_by_name name file = None ->
        get_all_datasets file' = get_all_datasets file).
Proof.
  unfold delete_dataset, get_dataset_by_name, get_all_datasets.
  destruct (datasets (load_registry file)) as [l|]; [|discriminate].
  intros [= <-]. cbn [save_registry load_registry datasets].
  split; [apply find_filter_none|]. split.
  - intros other Hne. apply find_filter. intros ds H.
    apply String.eqb_eq in H. apply negb_true_iff.
    destruct (String.eqb_spec (ds_name ds) name); [congruence|reflexivity].
  - intros H. induction l as [|a l IH]; simpl in *; [reflexivity|].
    destruct (String.eqb (ds_name a) name); [discriminate|]. simpl. f_equal. now apply IH.
Qed.

Lemma delete_dataset_lookup_witness :
  get_dataset_by_name "a" (snd (delete_dataset "a" sample_file)) = None
  /\ (forall other, other <> "a"%string ->
        get_dataset_by_name other (snd (delete_dataset "a" sample_file))
        = get_dataset_by_name other sample_file)
  /\ (get_dataset_by_name "a" sample_file = None ->
        get_all_datasets (snd (delete_dataset "a" sample_file))
        = get_all_datasets sample_file).
Proof.
  apply (delete_dataset_lookup "a" sample_file). reflexivity.
Defined.

Lemma update_first_spec (name : string) (a : Analysis) (l : list Dataset) :
  match update_first name a l with
  | Some l' =>
      exists l1 old l2,
        l = l1 ++ old :: l2 /\ l' = l1 ++ with_analysis old a :: l2
        /\ ds_name old = name
        /\ find (fun ds => String.eqb (ds_name ds) name) l1 = None
  | None => find (fun ds => String.eqb (ds_name ds) name) l = None
  end.
Proof.
  induction l as [|d r IH]; simpl; [reflexivity|].
  destruct (String.eqb_spec (ds_name d) name) as [E|E].
  - exists [], d, r. auto.
  - destruct (update_first name a r) as [r'|]; simpl; [|assumption].
    destruct IH as (l1 & old & l2 & -> & -> & Hn & Hf).
    exists (d :: l1), old, l2. repeat split; try assumption. simpl.
    destruct (String.eqb_spec (ds_name d) name); [contradiction|assumption].
Qed.

Lemma find_middle {A} (f : A -> bool) (l1 l2 : list A) (x : A) :
  find f l1 = None -> find f (l1 ++ x :: l2) = if f x then Some x else find f l2.
Proof.
  intros H. induction l1 as [|a l IH]; simpl in *; [reflexivity|].
  destruct (f a); [discriminate|]. now apply IH.
Qed.

(** X18.  [update_dataset_analysis] returns False and leaves the file
    untouched when no dataset has the name; otherwise it returns True and
    the dataset found by that name carries the new analysis.  The ids and
    the names of the registry are unchanged either way. *)
Theorem update_dataset_analysis_spec (name : string) (d r s : float)
    (file file' : registry_file) (b : bool) :
  update_dataset_analysis name d r s file = (Returns b, file') ->
  let a := {| an_D := Some d; an_r_squared := Some r; an_std_error := Some s |} in
  (b = false -> get_dataset_by_name name file = None /\ file' = file)
  /\ (b = true ->
      exists old, get_dataset_by_name name file = Some old
                  /\ get_dataset_by_name name file' = Some (with_analysis old a))
  /\ map ds_id (get_all_datasets file') = map ds_id (get_all_datasets file)
  /\ map ds_name (get_all_datasets file') = map ds_name (get_all_datasets file).
Proof.
  unfold update_dataset_analysis, get_dataset_by_name, get_all_datasets.
  destruct (datasets (load_registry file)) as [l|] eqn:L; [|discriminate].
  pose proof (update_first_spec name
                {| an_D := Some d; an_r_squared := Some r; an_std_error := Some s |} l) as U.
  destruct (update_first name _ l) as [l'|].
  - intros [= <- <-]. cbn [save_registry load_registry datasets].
    destruct U as (l1 & old & l2 & -> & -> & Hn & Hf).
    split; [discriminate|]. split; [|split].
    + intros _. exists old. rewrite !find_middle by assumption.
      cbn [with_analysis ds_name]. rewrite Hn, String.eqb_refl. auto.
    + now rewrite !map_app.
    + now rewrite !map_app.
  - intros [= <- <-]. rewrite L. split; [auto|]. split; [discriminate|]. auto.
Qed.

Lemma update_dataset_analysis_spec_witness :
  let file' := snd (update_dataset_analysis "a" 1.5 0.9
                      0.05 sample_file) in
  let a := {| an_D := Some 1.5; an_r_squared := Some 0.9;
              an_std_error := Some 0.05 |} in
  (true = false -> get_dataset_by_name "a" sample_file = None /\ file' = sample_file)
  /\ (true = true ->
      exists old, get_dataset_by_name "a" sample_file = Some old
                  /\ get_dataset_by_name "a" file' = Some (with_analysis old a))
  /\ map ds_id (get_all_datasets file') = map ds_id (get_all_datasets sample_file)
  /\ map ds_name (get_all_datasets file') = map ds_name (get_all_datasets sample_file).
Proof.
  apply (update_dataset_analysis_spec "a" 1.5 0.9
           0.05 sample_file).
  reflexivity.
Defined.

(** X19.  While the ids are the positions 1..n, [add_dataset] appends the
    new dataset with id n+1 and the ids stay the positions; so they do
    from a missing or unreadable file on, as long as nothing is deleted. *)
Theorem add_dataset_numbering (e : Entry) (now : string) (file file' : registry_file)
    (ds : Dataset) :
  well_numbered file ->
  add_dataset e now file = (Returns ds, file') ->
  ds_id ds = S (length (get_all_datasets file))
  /\ get_all_datasets file' = get_all_datasets file ++ [ds]
  /\ well_numbered file'.
Proof.
  unfold well_numbered, add_dataset, get_all_datasets.
  destruct (datasets (load_registry file)) as [l|]; [|discriminate].
  intros W [= <- <-]. cbn [save_registry load_registry datasets new_dataset ds_id].
  split; [lia|]. split; [reflexivity|].
  rewrite map_app, length_app, W. cbn [map length ds_id].
  rewrite Nat.add_1_r, seq_S. cbn [Nat.add]. reflexivity.
Qed.

Lemma add_dataset_numbering_witness :
  ds_id (new_dataset 3 (sample_entry "c") "2026-02-03") = S (length (get_all_datasets sample_file))
  /\ get_all_datasets (snd (add_dataset (sample_entry "c") "2026-02-03" sample_file))
     = get_all_datasets sample_file ++ [new_dataset 3 (sample_entry "c") "2026-02-03"]
  /\ well_numbered (snd (add_dataset (sample_entry "c") "2026-02-03" sample_file)).
Proof.
  apply (add_dataset_numbering (sample_entry "c") "2026-02-03" sample_file).
  - reflexivity.
  - reflexivity.
Defined.

(** X20.  Ids are not renumbered: in a registry whose ids are the
    positions 1..n and whose names are distinct from the deleted one
    except for the deleted dataset itself, after deleting a dataset that
    is not the last one, the next [add_dataset] gives the new dataset the
    id of the last one, and the ids of the registry are no longer
    distinct. *)
Theorem delete_then_add_repeats_id (name : string) (e : Entry) (now : string)
    (file file1 file2 : registry_file) (l1 l2 : list Dataset) (d ds : Dataset) :
  well_numbered file ->
  get_all_datasets file = l1 ++ d :: l2 ->
  l2 <> [] ->
  ds_name d = name ->
  (forall x, In x (l1 ++ l2) -> ds_name x <> name) ->
  delete_dataset name file = (Returns tt, file1) ->
  add_dataset e now file1 = (Returns ds, file2) ->
  In (last l2 d) (get_all_datasets file2)
  /\ In ds (get_all_datasets file2)
  /\ ds_id ds = ds_id (last l2 d)
  /\ ~ NoDup (map ds_id (get_all_datasets file2)).
Proof.
  unfold well_numbered, delete_dataset, add_dataset, get_all_datasets.
  destruct (datasets (load_registry file)) as [l|]; [|discriminate].
  intros W -> Hne Hd Hother [= <-]. cbn [save_registry load_registry datasets].
  intros [= <- <-]. cbn [load_registry datasets].
  assert (F : filter (fun x => negb (String.eqb (ds_name x) name)) (l1 ++ d :: l2) = l1 ++ l2).
  { rewrite filter_app. cbn [filter]. rewrite Hd, String.eqb_refl. cbn [negb].
    assert (G : forall l, (forall x, In x l -> ds_name x <> name) ->
                          filter (fun x => negb (String.eqb (ds_name x) name)) l = l).
    { induction l as [|a l IH]; intros H; simpl; [reflexivity|].
      destruct (String.eqb_spec (ds_name a) name) as [E|E].
      - exfalso. now apply (H a); [left|].
      - simpl. f_equal. apply IH. intros; apply H; now right. }
    rewrite !G; [reflexivity| |]; intros x Hx; apply Hother, in_or_app; auto. }
  rewrite F.
  destruct (exists_last Hne) as (l2' & z & ->).
  rewrite last_last.
  assert (Hz : ds_id z = (length (l1 ++ l2' ++ [z]) + 1)%nat).
  { assert (E : last (map ds_id (l1 ++ d :: l2' ++ [z])) 0%nat
                = last (seq 1 (length (l1 ++ d :: l2' ++ [z]))) 0%nat) by now rewrite W.
    replace (l1 ++ d :: l2' ++ [z]) with ((l1 ++ d :: l2') ++ [z]) in E
      by now rewrite <- app_assoc.
    rewrite map_app, length_app in E. cbn [map length] in E.
    rewrite last_last, Nat.add_1_r, seq_S, last_last in E.
    rewrite E. repeat (rewrite length_app || cbn [length]). lia. }
  cbn [save_registry load_registry datasets new_dataset ds_id].
  split; [apply in_or_app; left; apply in_or_app; right; apply in_or_app; right; now left|].
  split; [apply in_or_app; right; now left|].
  split; [now rewrite Hz|].
  intros ND. cbn [save_registry load_registry datasets] in ND. rewrite !map_app in ND. cbn [map new_dataset ds_id] in ND.
  rewrite !app_assoc in ND.
  apply NoDup_remove_2 in ND. apply ND.
  rewrite app_nil_r. apply in_or_app; right. left. rewrite Hz.
  repeat (rewrite length_app || cbn [length]). lia.
Qed.

Lemma delete_then_add_repeats_id_witness :
  let d := new_dataset 1 (sample_entry "a") "2026-02-02T00:00:00" in
  let b := new_dataset 2 (sample_entry "b") "2026-02-02T00:00:01" in
  let ds := new_dataset 2 (sample_entry "c") "2026-02-03" in
  let file2 := snd (add_dataset (sample_entry "c") "2026-02-03"
                      (snd (delete_dataset "a" sample_file))) in
  In (last [b] d) (get_all_datasets file2)
  /\ In ds (get_all_datasets file2)
  /\ ds_id ds = ds_id (last [b] d)
  /\ ~ NoDup (map ds_id (get_all_datasets file2)).
Proof.
  apply (delete_then_add_repeats_id "a" (sample_entry "c") "2026-02-03" sample_file
           (snd (delete_dataset "a" sample_file)) _ []).
  - reflexivity.
  - reflexivity.
  - discriminate.
  - reflexivity.
  - intros x [<-|[]]. discriminate.
  - reflexivity.
  - reflexivity.
Defined.

(** ** [generate_filename] *)

Lemma occurs_append (c : ascii) (a b : string) :
  occurs c (String.append a b) = occurs c a || occurs c b.
Proof.
  induction a as [|x a IH]; simpl; [reflexivity|]. now rewrite IH, orb_assoc.
Qed.

Lemma replace_char_removes (c : ascii) (by_ s : string) :
  occurs c by_ = false -> occurs c (replace_char c by_ s) = false.
Proof.
  intros H. induction s as [|a s IH]; simpl; [reflexivity|].
  destruct (Ascii.eqb_spec a c) as [->|E].
  - now rewrite occurs_append, H, IH.
  - simpl. rewrite IH. apply orb_false_iff. split; [|reflexivity].
    now apply Ascii.eqb_neq.
Qed.

Lemma replace_char_keeps_out (c c' : ascii) (by_ s : string) :
  occurs c by_ = false -> occurs c s = false ->
  occurs c (replace_char c' by_ s) = false.
Proof.
  intros H. induction s as [|a s IH]; simpl; [reflexivity|].
  intros Hs. apply orb_false_iff in Hs. destruct Hs as [Ha Hs].
  destruct (Ascii.eqb a c').
  - now rewrite occurs_append, H, IH.
  - simpl. now rewrite Ha, IH.
Qed.

(** X22.  For a preset region the file name holds a space, a parenthesis or
    a slash only where the first ten characters of one of the two dates
    do: the region contributes none. *)
Theorem generate_filename_region_clean (region category start_date end_date : string)
    (c : ascii) :
  In c [" "; "("; ")"; "/"]%char ->
  occurs c (generate_filename region category start_date end_date false)
  = occurs c (String.substring 0 10 start_date)
    || occurs c (String.substring 0 10 end_date).
Proof.
  intros Hc. unfold generate_filename. rewrite !occurs_append.
  assert (R : occurs c (replace_char "/" "-"
                 (replace_char ")" ""
                    (replace_char "(" "" (replace_char " " "_" region)))) = false).
  { simpl in Hc. destruct Hc as [<-|[<-|[<-|[<-|[]]]]].
    - do 3 (apply replace_char_keeps_out; [reflexivity|]).
      now apply replace_char_removes.
    - apply replace_char_keeps_out; [reflexivity|].
      apply replace_char_keeps_out; [reflexivity|].
      now apply replace_char_removes.
    - apply replace_char_keeps_out; [reflexivity|].
      now apply replace_char_removes.
    - now apply replace_char_removes. }
  rewrite R.
  assert (U : occurs c "_" = false /\ occurs c "_to_" = false).
  { simpl in Hc. destruct Hc as [<-|[<-|[<-|[<-|[]]]]]; split; reflexivity. }
  destruct U as [-> ->]. reflexivity.
Qed.

Lemma generate_filename_region_clean_witness :
  occurs "/" (generate_filename "Haiti (2010) A/B" "Other" "2020-01-01T00:00:00"
                                "2026-02-02" false)
  = occurs "/" (String.substring 0 10 "2020-01-01T00:00:00")
    || occurs "/" (String.substring 0 10 "2026-02-02").
Proof.
  apply (generate_filename_region_clean "Haiti (2010) A/B" "Other" "2020-01-01T00:00:00"
           "2026-02-02" "/").
  right; right; right; left. reflexivity.
Defined.
